(** * Fraud-detection function: the request pipeline of [src/index.ts]

    The program is an Express application with three routes ([/], [/health],
    [/predict]), a zod schema for the five query parameters, a normaliser
    over the scaler artifact and one call to an inference backend.

    The development follows the program's layers:
    - [Js]: the values the program computes with (ECMAScript numbers are
      IEEE binary64, here Rocq's primitive [float]), [Number] on strings,
      [ToNumber], property reads, the relational operator, [JSON.parse];
    - [Zod]: [z.string()], [.transform], [.refine], [z.object], [.parse];
    - [Express]: the layer stack in registration order, [next] and the
      final handler;
    - the definitions of [index.ts] under their own names. The prediction
      handler reads the name [https], which the module does not import:
      the handler is stated for any set of bound names ([predict_in]) and
      the program is its instance at the names the module binds
      ([predict], [app], [serve]). *)

From Stdlib Require Import ZArith List String Ascii Bool Lia Floats Reals Lra.
Import ListNotations.

Open Scope string_scope.
Open Scope Z_scope.

(* ================================================================== *)
(** * ECMAScript values *)
(* ================================================================== *)

Module Js.

(** A string is its sequence of code units; the model holds the units
    below 256, which covers every name and literal the program reads. *)
Definition chars (s : string) : list ascii := list_ascii_of_string s.
Definition code (c : ascii) : Z := Z.of_nat (nat_of_ascii c).

(** ** Numbers *)

(** The binary64 nearest to [p / q] (ties to even), for [0 <= p], [0 < q]:
    the rounding of the mathematical value of a numeric literal. *)
Definition round_ratio (p q : Z) : float :=
  if p <=? 0 then 0%float else
  let d := Z.log2 p - Z.log2 q in
  let ge := if 0 <=? d then q * 2 ^ d <=? p else q <=? p * 2 ^ (- d) in
  let e := Z.max (if ge then d - 52 else d - 53) (-1074) in
  let num := if e <? 0 then p * 2 ^ (- e) else p in
  let den := if e <? 0 then q else q * 2 ^ e in
  let m := num / den in
  let r := num mod den in
  let m' := if (den <? 2 * r) || ((den =? 2 * r) && Z.odd m) then m + 1 else m in
  if 971 <? e then infinity
  else Z.ldexp (of_uint63 (Uint63.of_Z m')) e.

Definition signed (neg : bool) (x : float) : float :=
  if neg then (- x)%float else x.

(** The value [m * 10 ^ e] as a number. *)
Definition of_decimal (m e : Z) : float :=
  if 0 <=? e then round_ratio (m * 10 ^ e) 1 else round_ratio m (10 ^ (- e)).

Definition is_digit (c : ascii) : bool := (48 <=? code c) && (code c <=? 57).

Definition digit_in (radix : Z) (c : ascii) : option Z :=
  let n := code c in
  let v := if (48 <=? n) && (n <=? 57) then n - 48
           else if (97 <=? n) && (n <=? 102) then n - 87
           else if (65 <=? n) && (n <=? 70) then n - 55
           else radix in
  if v <? radix then Some v else None.

Fixpoint take_digits (l : list ascii) : list ascii * list ascii :=
  match l with
  | c :: r => if is_digit c then let (d, t) := take_digits r in (c :: d, t)
              else ([], l)
  | [] => ([], [])
  end.

Definition digits_value (radix : Z) (l : list ascii) : option Z :=
  fold_left (fun acc c =>
               match acc, digit_in radix c with
               | Some a, Some v => Some (a * radix + v)
               | _, _ => None
               end) l (Some 0).

(** DecimalDigits, the whole of [l]. *)
Definition decimal_digits (l : list ascii) : option Z :=
  match l with
  | [] => None
  | _ => digits_value 10 l
  end.

(** SignedInteger. *)
Definition signed_integer (l : list ascii) : option Z :=
  match l with
  | "+"%char :: d => decimal_digits d
  | "-"%char :: d => option_map Z.opp (decimal_digits d)
  | _ => decimal_digits l
  end.

(** ExponentPart, optional. *)
Definition exponent_part (l : list ascii) : option Z :=
  match l with
  | [] => Some 0
  | "e"%char :: r | "E"%char :: r => signed_integer r
  | _ => None
  end.

(** The digits-and-exponent alternatives of StrUnsignedDecimalLiteral, as
    mantissa and decimal exponent. *)
Definition unsigned_decimal (l : list ascii) : option (Z * Z) :=
  let (ip, r1) := take_digits l in
  match r1 with
  | "."%char :: r2 =>
      let (fp, r3) := take_digits r2 in
      match (ip ++ fp)%list with
      | [] => None
      | ds =>
          match digits_value 10 ds, exponent_part r3 with
          | Some m, Some e => Some (m, e - Z.of_nat (List.length fp))
          | _, _ => None
          end
      end
  | _ =>
      match ip with
      | [] => None
      | _ =>
          match digits_value 10 ip, exponent_part r1 with
          | Some m, Some e => Some (m, e)
          | _, _ => None
          end
      end
  end.

Definition list_eqb (a b : list ascii) : bool :=
  String.eqb (string_of_list_ascii a) (string_of_list_ascii b).

(** StrUnsignedDecimalLiteral. *)
Definition str_unsigned_decimal (l : list ascii) : option float :=
  if list_eqb l (chars "Infinity") then Some infinity
  else option_map (fun me => of_decimal (fst me) (snd me)) (unsigned_decimal l).

(** NonDecimalIntegerLiteral: [0x], [0o], [0b] and their capitals. *)
Definition non_decimal (l : list ascii) : option float :=
  match l with
  | "0"%char :: p :: ds =>
      let radix :=
        match p with
        | "x"%char | "X"%char => Some 16
        | "o"%char | "O"%char => Some 8
        | "b"%char | "B"%char => Some 2
        | _ => None
        end in
      match radix, ds with
      | Some r, _ :: _ => option_map (fun n => round_ratio n 1) (digits_value r ds)
      | _, _ => None
      end
  | _ => None
  end.

(** StrNumericLiteral. *)
Definition str_numeric (l : list ascii) : option float :=
  match non_decimal l with
  | Some x => Some x
  | None =>
      match l with
      | "+"%char :: r => str_unsigned_decimal r
      | "-"%char :: r => option_map (signed true) (str_unsigned_decimal r)
      | _ => str_unsigned_decimal l
      end
  end.

(** StrWhiteSpaceChar, among the units below 256. *)
Definition is_space (c : ascii) : bool :=
  let n := code c in
  ((9 <=? n) && (n <=? 13)) || (n =? 32) || (n =? 160).

Fixpoint trim_left (l : list ascii) : list ascii :=
  match l with
  | c :: r => if is_space c then trim_left r else l
  | [] => []
  end.

Definition trim (l : list ascii) : list ascii :=
  rev (trim_left (rev (trim_left l))).

(** StringToNumber: [Number(s)] for a string [s]. *)
Definition StringToNumber (s : string) : float :=
  match trim (chars s) with
  | [] => 0%float
  | l => match str_numeric l with
         | Some x => x
         | None => nan
         end
  end.

(** ** Values *)

#[local] Set Warnings "-register-all".

Inductive value : Type :=
| Undefined
| Null
| Bool (b : bool)
| Num (x : float)
| Str (s : string)
| Arr (items : list value)
| Obj (fields : list (string * value)).

(** What a [throw] carries. [AxiosError] is a rejected backend call, with
    the [status] property it has when the backend answered. *)
Inductive error : Type :=
| ZodError (issues : list value)
| ReferenceError (name : string)
| TypeError (message : string)
| SyntaxError
| SystemError (errno : string)
| AxiosError (status : option Z).

Inductive outcome (A : Type) : Type :=
| Return (a : A)
| Throw (e : error).
Arguments Return {A} a.
Arguments Throw {A} e.

(** ToNumber. An array or object goes through ToPrimitive, that is through
    its [toString]: an object gives "[object Object]", an array the join
    of its elements' strings with ",", where [null] and [undefined] give
    the empty string. No numeric literal holds a comma, so an array of two
    or more elements gives NaN, and a one-element array gives the number of
    its element's string; the string of a number [x] reads back as [x],
    but for [-0], whose string is "0". *)
Fixpoint ToNumber (v : value) : float :=
  match v with
  | Undefined => nan
  | Null => 0%float
  | Bool b => if b then 1%float else 0%float
  | Num x => x
  | Str s => StringToNumber s
  | Arr [] => 0%float
  | Arr [e] =>
      match e with
      | Undefined | Null => 0%float
      | Num x => if is_zero x then 0%float else x
      | Str s => StringToNumber s
      | Arr _ => ToNumber e
      | Bool _ | Obj _ => nan
      end
  | Arr (_ :: _ :: _) => nan
  | Obj _ => nan
  end.

(** [Number(v)] called as a function. *)
Definition Number (v : value) : value := Num (ToNumber v).

(** [a === b] where one side is a number: numbers compare by IEEE
    equality (NaN differs from itself, -0 equals 0), any other type
    differs from a number. *)
Definition strict_eq_num (a : value) (n : float) : bool :=
  match a with
  | Num x => (x =? n)%float
  | _ => false
  end.

(** [a > t] for a number [t]: IsLessThan(t, a) after ToNumber; a NaN on
    either side gives false. *)
Definition gt_num (a : value) (t : float) : bool := (t <? ToNumber a)%float.

(** Truthiness of a string or a missing value, as [||] tests it. *)
Definition or_else (a : option string) (dflt : value) : value :=
  match a with
  | Some s => if String.eqb s "" then dflt else Str s
  | None => dflt
  end.

Fixpoint lookup {A : Type} (k : string) (l : list (string * A)) : option A :=
  match l with
  | (k', a) :: r => if String.eqb k k' then Some a else lookup k r
  | [] => None
  end.

(** [o[k] = a] on own properties: an existing key keeps its place. *)
Fixpoint store {A : Type} (k : string) (a : A) (l : list (string * A))
  : list (string * A) :=
  match l with
  | (k', a') :: r => if String.eqb k k' then (k, a) :: r else (k', a') :: store k a r
  | [] => [(k, a)]
  end.

Definition digit_char (n : nat) : ascii := ascii_of_nat (48 + n).

Fixpoint index_digits (fuel n : nat) (acc : list ascii) : list ascii :=
  match fuel with
  | O => acc
  | S f => let acc' := digit_char (Nat.modulo n 10) :: acc in
           if Nat.ltb n 10 then acc' else index_digits f (Nat.div n 10) acc'
  end.

(** The property name of an array index. *)
Definition index_name (n : nat) : string :=
  string_of_list_ascii (index_digits (S n) n []).

Definition cannot_read (k : string) : error :=
  TypeError ("Cannot read properties of undefined or null (reading '" ++ k ++ "')").

(** [v.k] for a name [k] that no prototype defines (the program reads
    [mean], [scale], [outputs] and [data]). *)
Definition get_field (v : value) (k : string) : outcome value :=
  match v with
  | Undefined | Null => Throw (cannot_read k)
  | Obj fields => Return (match lookup k fields with Some a => a | None => Undefined end)
  | _ => Return Undefined
  end.

(** [v[i]] for an index [i]. *)
Definition get_index (v : value) (i : nat) : outcome value :=
  match v with
  | Undefined | Null => Throw (cannot_read (index_name i))
  | Arr items => Return (nth i items Undefined)
  | Str s => Return (match String.get i s with Some c => Str (String c "") | None => Undefined end)
  | Obj fields => Return (match lookup (index_name i) fields with Some a => a | None => Undefined end)
  | _ => Return Undefined
  end.

(** ** [JSON.stringify] *)

(** A value as the JSON document written for it carries it, that is as
    its reader parses it: a member that is [undefined] is left out, an
    element that is [undefined] and a number that is NaN or an infinity
    are written [null], and -0 is written [0]. The program writes objects
    only: [undefined] is met as a member, which is left out, or as an
    element, which is the first case below. *)
Fixpoint stringified (v : value) : value :=
  match v with
  | Undefined => Null
  | Num x => if is_finite x then (if is_zero x then Num 0 else Num x) else Null
  | Arr items => Arr (map stringified items)
  | Obj fields =>
      Obj ((fix members (l : list (string * value)) : list (string * value) :=
              match l with
              | [] => []
              | (k, a) :: r =>
                  match a with
                  | Undefined => members r
                  | _ => (k, stringified a) :: members r
                  end
              end) fields)
  | Null | Bool _ | Str _ => v
  end.

(** ** [JSON.parse] *)

Definition is_char (x c : ascii) : bool := Ascii.eqb c x.

(** The double quote. *)
Definition dquote : ascii := ascii_of_nat 34.

Fixpoint skip_ws (l : list ascii) : list ascii :=
  match l with
  | c :: r => if (code c =? 32) || (code c =? 9) || (code c =? 10) || (code c =? 13)
              then skip_ws r else l
  | [] => []
  end.

Definition simple_escape (c : ascii) : option ascii :=
  if is_char dquote c || is_char "\"%char c || is_char "/"%char c then Some c
  else if is_char "b"%char c then Some (ascii_of_nat 8)
  else if is_char "f"%char c then Some (ascii_of_nat 12)
  else if is_char "n"%char c then Some (ascii_of_nat 10)
  else if is_char "r"%char c then Some (ascii_of_nat 13)
  else if is_char "t"%char c then Some (ascii_of_nat 9)
  else None.

(** A [\u] escape above FF is outside the units the model holds; it is
    kept as "?", which occurs in no name the program reads. *)
Definition unit_of (n : Z) : ascii :=
  if n <? 256 then ascii_of_nat (Z.to_nat n) else "?"%char.

(** The rest of a string literal, after its opening quote. *)
Fixpoint json_string (l acc : list ascii) : option (string * list ascii) :=
  match l with
  | [] => None
  | c :: r =>
      if is_char dquote c then Some (string_of_list_ascii (rev acc), r)
      else if is_char "\"%char c then
        match r with
        | e :: r' =>
            match simple_escape e with
            | Some x => json_string r' (x :: acc)
            | None =>
                if is_char "u"%char e then
                  match r' with
                  | h1 :: h2 :: h3 :: h4 :: r'' =>
                      match digits_value 16 [h1; h2; h3; h4] with
                      | Some n => json_string r'' (unit_of n :: acc)
                      | None => None
                      end
                  | _ => None
                  end
                else None
            end
        | [] => None
        end
      else if code c <? 32 then None
      else json_string r (c :: acc)
  end.

(** A number literal: [-? int frac? exp?]. *)
Definition json_number (l : list ascii) : option (float * list ascii) :=
  let (neg, l1) := match l with
                   | c :: r => if is_char "-"%char c then (true, r) else (false, l)
                   | [] => (false, l)
                   end in
  let (ip, r1) := take_digits l1 in
  let int_ok := match ip with
                | [] => false
                | [_] => true
                | c :: _ => negb (is_char "0"%char c)
                end in
  let frac := match r1 with
              | c :: r2 =>
                  if is_char "."%char c then
                    let (fp, r3) := take_digits r2 in
                    match fp with [] => None | _ => Some (fp, r3) end
                  else Some ([], r1)
              | [] => Some ([], r1)
              end in
  match int_ok, frac with
  | true, Some (fp, r3) =>
      let ex := match r3 with
                | c :: r4 =>
                    if is_char "e"%char c || is_char "E"%char c then
                      let (sg, r5) := match r4 with
                                      | s :: r5 =>
                                          if is_char "+"%char s then (false, r5)
                                          else if is_char "-"%char s then (true, r5)
                                          else (false, r4)
                                      | [] => (false, r4)
                                      end in
                      let (ed, r6) := take_digits r5 in
                      match decimal_digits ed with
                      | Some e => Some (if sg then - e else e, r6)
                      | None => None
                      end
                    else Some (0, r3)
                | [] => Some (0, r3)
                end in
      match digits_value 10 (ip ++ fp)%list, ex with
      | Some m, Some (e, rest) =>
          Some (signed neg (of_decimal m (e - Z.of_nat (List.length fp))), rest)
      | _, _ => None
      end
  | _, _ => None
  end.

Fixpoint strip_prefix (p l : list ascii) : option (list ascii) :=
  match p, l with
  | [], _ => Some l
  | a :: p', b :: l' => if Ascii.eqb a b then strip_prefix p' l' else None
  | _ :: _, [] => None
  end.

(** A value, the elements of an array after its "[" and the members of an
    object after its "{". Each call takes one unit of fuel, and of any two
    calls in a row one has consumed a character. *)
Fixpoint parse_value (fuel : nat) (l : list ascii) : option (value * list ascii) :=
  match fuel with
  | O => None
  | S f =>
      match skip_ws l with
      | [] => None
      | c :: r =>
          if is_char "{"%char c then
            match skip_ws r with
            | c' :: r' => if is_char "}"%char c' then Some (Obj [], r')
                          else parse_members f (c' :: r') []
            | [] => None
            end
          else if is_char "["%char c then
            match skip_ws r with
            | c' :: r' => if is_char "]"%char c' then Some (Arr [], r')
                          else parse_elements f (c' :: r') []
            | [] => None
            end
          else if is_char dquote c then
            option_map (fun sr => (Str (fst sr), snd sr)) (json_string r [])
          else
            match strip_prefix (chars "true") (c :: r),
                  strip_prefix (chars "false") (c :: r),
                  strip_prefix (chars "null") (c :: r) with
            | Some r', _, _ => Some (Bool true, r')
            | _, Some r', _ => Some (Bool false, r')
            | _, _, Some r' => Some (Null, r')
            | _, _, _ =>
                option_map (fun xr => (Num (fst xr), snd xr)) (json_number (c :: r))
            end
      end
  end
with parse_elements (fuel : nat) (l : list ascii) (acc : list value)
  : option (value * list ascii) :=
  match fuel with
  | O => None
  | S f =>
      match parse_value f l with
      | Some (v, r) =>
          match skip_ws r with
          | c :: r' =>
              if is_char ","%char c then parse_elements f r' (v :: acc)
              else if is_char "]"%char c then Some (Arr (rev (v :: acc)), r')
              else None
          | [] => None
          end
      | None => None
      end
  end
with parse_members (fuel : nat) (l : list ascii) (acc : list (string * value))
  : option (value * list ascii) :=
  match fuel with
  | O => None
  | S f =>
      match skip_ws l with
      | q :: r =>
          if is_char dquote q then
            match json_string r [] with
            | Some (k, r1) =>
                match skip_ws r1 with
                | c :: r2 =>
                    if is_char ":"%char c then
                      match parse_value f r2 with
                      | Some (v, r3) =>
                          match skip_ws r3 with
                          | d :: r4 =>
                              if is_char ","%char d then parse_members f r4 (store k v acc)
                              else if is_char "}"%char d then Some (Obj (store k v acc), r4)
                              else None
                          | [] => None
                          end
                      | None => None
                      end
                    else None
                | [] => None
                end
            | None => None
            end
          else None
      | [] => None
      end
  end.

(** [JSON.parse(text)]: one value, white space around it, nothing else. *)
Definition JSON_parse (text : string) : outcome value :=
  let l := chars text in
  match parse_value (2 * List.length l + 2) l with
  | Some (v, r) => match skip_ws r with
                   | [] => Return v
                   | _ :: _ => Throw SyntaxError
                   end
  | None => Throw SyntaxError
  end.

End Js.

Import Js.

(* ================================================================== *)
(** * Effects: what is observable besides the response *)
(* ================================================================== *)

(** A request issued to the backend; the [console.error(err)] of line
    115; and the report Express itself makes of an error that reaches its
    final handler, [console.error(err.stack)]. *)
Inductive event : Type :=
| BackendCall (url : string) (body : value)
| ConsoleError (e : error)
| ErrorLogged (e : error).

(** A computation appends to the trace of events and returns or throws. *)
Definition M (A : Type) : Type := list event -> outcome A * list event.

Definition ret {A : Type} (a : A) : M A := fun t => (Return a, t).

Definition throw {A : Type} (e : error) : M A := fun t => (Throw e, t).

Definition lift {A : Type} (o : outcome A) : M A := fun t => (o, t).

Definition bind {A B : Type} (m : M A) (k : A -> M B) : M B :=
  fun t => match m t with
           | (Return a, t') => k a t'
           | (Throw e, t') => (Throw e, t')
           end.

Definition emit (ev : event) : M unit := fun t => (Return tt, (t ++ [ev])%list).

Definition try_catch {A : Type} (m : M A) (h : error -> M A) : M A :=
  fun t => match m t with
           | (Throw e, t') => h e t'
           | r => r
           end.

Declare Scope js_scope.
Delimit Scope js_scope with js.
Notation "x <- m ;; k" := (bind m (fun x => k))
  (at level 61, m at next level, right associativity) : js_scope.
Notation "m ;;; k" := (bind m (fun _ => k))
  (at level 61, right associativity) : js_scope.

Definition and_then {A B : Type} (o : outcome A) (k : A -> outcome B) : outcome B :=
  match o with
  | Return a => k a
  | Throw e => Throw e
  end.

Definition backend_calls (t : list event) : list (string * value) :=
  flat_map (fun ev => match ev with
                      | BackendCall u b => [(u, b)]
                      | ConsoleError _ | ErrorLogged _ => []
                      end) t.

(* ================================================================== *)
(** * zod: the combinators [index.ts] builds its schema from *)
(* ================================================================== *)

Module Zod.

(** ParseStatus with the parsed value. *)
Inductive parsed : Type :=
| Valid (v : value)
| Dirty (v : value)
| Aborted.

(** A schema parses the input found at a path and adds the issues it
    finds to the issues of the parse. *)
Definition schema : Type := list string -> value -> parsed * list value.

(** getParsedType. *)
Definition parsed_type (v : value) : string :=
  match v with
  | Undefined => "undefined"
  | Null => "null"
  | Bool _ => "boolean"
  | Num x => if is_nan x then "nan" else "number"
  | Str _ => "string"
  | Arr _ => "array"
  | Obj _ => "object"
  end.

Definition path_value (path : list string) : value := Arr (map Str path).

(** The [invalid_type] issue, with the message of the default error map. *)
Definition invalid_type (expected : string) (v : value) (path : list string) : value :=
  Obj [("code", Str "invalid_type");
       ("expected", Str expected);
       ("received", Str (parsed_type v));
       ("path", path_value path);
       ("message", Str (match v with
                        | Undefined => "Required"
                        | _ => "Expected " ++ expected ++ ", received " ++ parsed_type v
                        end))].

(** The issue of a failed [.refine] with no message of its own. *)
Definition custom (path : list string) : value :=
  Obj [("code", Str "custom"); ("message", Str "Invalid input"); ("path", path_value path)].

(** [z.string()]. *)
Definition string_ : schema :=
  fun path v => match v with
                | Str _ => (Valid v, [])
                | _ => (Aborted, [invalid_type "string" v path])
                end.

(** [.transform(f)]: [f] runs on a valid inner result only. *)
Definition transform (f : value -> value) (inner : schema) : schema :=
  fun path v => match inner path v with
                | (Valid a, issues) => (Valid (f a), issues)
                | base => base
                end.

(** [.refine(check)]: skipped when the inner parse aborted. *)
Definition refine (check : value -> bool) (inner : schema) : schema :=
  fun path v => match inner path v with
                | (Aborted, issues) => (Aborted, issues)
                | (Valid a, issues) =>
                    if check a then (Valid a, issues)
                    else (Dirty a, (issues ++ [custom path])%list)
                | (Dirty a, issues) =>
                    if check a then (Dirty a, issues)
                    else (Dirty a, (issues ++ [custom path])%list)
                end.

(** [data[key]]. *)
Definition input (key : string) (fields : list (string * value)) : value :=
  match lookup key fields with
  | Some a => a
  | None => Undefined
  end.

(** Every key of the shape is parsed, in the order of the shape; the
    results are merged afterwards (mergeObjectSync): one aborted key
    aborts the object, a dirty one makes it dirty. Keys outside the shape
    are stripped. *)
Fixpoint parse_shape (shape : list (string * schema)) (path : list string)
  (fields : list (string * value)) : list (string * parsed) * list value :=
  match shape with
  | [] => ([], [])
  | (key, s) :: rest =>
      let (r, issues) := s (path ++ [key])%list (input key fields) in
      let (rs, issues') := parse_shape rest path fields in
      ((key, r) :: rs, (issues ++ issues')%list)
  end.

Fixpoint merge_object (pairs : list (string * parsed)) : parsed :=
  match pairs with
  | [] => Valid (Obj [])
  | (key, r) :: rest =>
      match r, merge_object rest with
      | Aborted, _ | _, Aborted => Aborted
      | Valid a, Valid (Obj o) => Valid (Obj ((key, a) :: o))
      | Valid a, Dirty (Obj o) | Dirty a, Valid (Obj o) | Dirty a, Dirty (Obj o) =>
          Dirty (Obj ((key, a) :: o))
      | _, _ => Aborted
      end
  end.

(** [z.object(shape)]. *)
Definition object (shape : list (string * schema)) : schema :=
  fun path v => match v with
                | Obj fields =>
                    let (pairs, issues) := parse_shape shape path fields in
                    (merge_object pairs, issues)
                | _ => (Aborted, [invalid_type "object" v path])
                end.

(** [schema.parse(data)]: the value of a valid parse, else a ZodError
    holding every issue found. *)
Definition parse (s : schema) (data : value) : outcome value :=
  match s [] data with
  | (Valid v, _) => Return v
  | (_, issues) => Throw (ZodError issues)
  end.

End Zod.

(* ================================================================== *)
(** * Express: layers, dispatch and the final handler *)
(* ================================================================== *)

Module Express.

Inductive method : Type := GET | HEAD | OPTIONS | POST | PUT | PATCH | DELETE.

(** A request as the handlers see it: [req.query] is already parsed, its
    values are strings, arrays (a repeated key) or objects (a bracketed
    key). *)
Record request : Type := {
  req_method : method;
  req_path : string;
  req_query : list (string * value)
}.

(** The page of the final handler. *)
Inductive page : Type :=
| StackTrace (e : error)
| StatusMessage (status : Z)
| CannotFind (m : method) (path : string).

(** What a response carries: a JSON document (as its reader parses it),
    a page of the final handler, the automatic answer to OPTIONS (the
    methods, in the Allow header and in the body), what a collaborator
    rendered, or nothing. *)
Inductive body : Type :=
| Json (v : value)
| Html (p : page)
| Allow (methods : list string)
| Rendered
| Empty.

Record response : Type := {
  status : Z;
  content : body
}.

(** What a handler does with a request: it answers, or it calls [next]. *)
Inductive action : Type :=
| Send (r : response)
| Next (e : option error).

(** A handler of three parameters, or an error handler of four. *)
Inductive handler : Type :=
| Middleware (h : request -> M action)
| ErrorMiddleware (h : error -> request -> M action).

Inductive mount : Type :=
| UseAll
| Use (prefix : string)
| Get (path : string).

Record layer : Type := {
  mounted : mount;
  handle : handler
}.

Definition lower (c : ascii) : ascii :=
  if (65 <=? code c) && (code c <=? 90) then ascii_of_nat (nat_of_ascii c + 32) else c.

Fixpoint lowercase (s : string) : string :=
  match s with
  | EmptyString => EmptyString
  | String c r => String (lower c) (lowercase r)
  end.

(** Routing is case-insensitive and not strict: one trailing slash is
    accepted. A route of [app.get] also serves HEAD. *)
Definition route_matches (route path : string) : bool :=
  let p := lowercase path in
  String.eqb p route || (negb (String.eqb route "/") && String.eqb p (route ++ "/")).

Definition prefix_matches (pre path : string) : bool :=
  let p := lowercase path in
  String.eqb p pre || String.prefix (pre ++ "/") p.

Definition layer_matches (m : mount) (req : request) : bool :=
  match m with
  | UseAll => true
  | Use pre => prefix_matches pre (req_path req)
  | Get route =>
      match req_method req with
      | GET | HEAD => route_matches route (req_path req)
      | _ => false
      end
  end.

(** A route of [app.get] whose path matches an OPTIONS request does not
    take it: it adds its methods to the automatic answer. *)
Definition offers (m : mount) (req : request) : list string :=
  match m, req_method req with
  | Get route, OPTIONS =>
      if route_matches route (req_path req) then ["GET"; "HEAD"] else []
  | _, _ => []
  end.

(** appendMethods: each method once. *)
Definition append_methods (options methods : list string) : list string :=
  fold_left (fun acc m => if existsb (String.eqb m) acc then acc else (acc ++ [m])%list)
            methods options.

(** [err.status], where it is a number. *)
Definition error_status (e : error) : option Z :=
  match e with
  | AxiosError st => st
  | _ => None
  end.

(** The handler that ends every stack (finalhandler): with an error, the
    status is [err.status] when it lies in 400..599 and 500 otherwise, and
    the page shows the stack of the error unless the environment is
    production; without one the answer is 404. *)
Definition finalhandler (production : bool) (req : request) (err : option error)
  : response :=
  match err with
  | Some e =>
      let st := match error_status e with
                | Some s => if (400 <=? s) && (s <? 600) then s else 500
                | None => 500
                end in
      {| status := st;
         content := Html (if production then StatusMessage st else StackTrace e) |}
  | None =>
      {| status := 404; content := Html (CannotFind (req_method req) (req_path req)) |}
  end.

(** The application reports an error that reaches the final handler
    (logerror): [console.error(err.stack)], unless the environment is
    test. *)
Definition onerror (testing : bool) (err : option error) : list event :=
  match err with
  | Some e => if testing then [] else [ErrorLogged e]
  | None => []
  end.

(** The end of the stack: an OPTIONS request that met routes and no error
    is answered 200 with their methods; anything else goes to the final
    handler. *)
Definition done (production testing : bool) (req : request) (err : option error)
  (options : list string) (t : list event) : response * list event :=
  match err, req_method req, options with
  | None, OPTIONS, _ :: _ => ({| status := 200; content := Allow options |}, t)
  | _, _, _ => (finalhandler production req err, (t ++ onerror testing err)%list)
  end.

(** [next]: the layers after the current one, in registration order. With
    an error pending only error handlers run; without one they are
    skipped. A handler that throws is a call of [next] with what it
    threw. *)
Fixpoint dispatch (production testing : bool) (stack : list layer) (req : request)
  (err : option error) (options : list string) (t : list event)
  : response * list event :=
  match stack with
  | [] => done production testing req err options t
  | l :: rest =>
      if layer_matches (mounted l) req then
        match handle l, err with
        | Middleware h, None =>
            let (a, t') := h req t in
            match a with
            | Return (Send r) => (r, t')
            | Return (Next e) => dispatch production testing rest req e options t'
            | Throw e => dispatch production testing rest req (Some e) options t'
            end
        | ErrorMiddleware h, Some e =>
            let (a, t') := h e req t in
            match a with
            | Return (Send r) => (r, t')
            | Return (Next e') => dispatch production testing rest req e' options t'
            | Throw e' => dispatch production testing rest req (Some e') options t'
            end
        | _, _ => dispatch production testing rest req err options t
        end
      else
        dispatch production testing rest req err
                 (match err with
                  | None => append_methods options (offers (mounted l) req)
                  | Some _ => options
                  end) t
  end.

(** What goes out: the response to a HEAD request is ended without its
    body. *)
Definition on_wire (req : request) (r : response) : response :=
  match req_method req with
  | HEAD => {| status := status r; content := Empty |}
  | _ => r
  end.

(** [res.json(v)] and [res.status(s).json(v)]: the document is
    [JSON.stringify(v)]. *)
Definition json (v : value) : response :=
  {| status := 200; content := Json (stringified v) |}.
Definition status_json (s : Z) (v : value) : response :=
  {| status := s; content := Json (stringified v) |}.

End Express.

Import Express.
Local Open Scope js_scope.
#[local] Set Warnings "-inexact-float".

(* ================================================================== *)
(** * [index.ts] *)
(* ================================================================== *)

(** ** The environment of the process *)

(** The files the process can read: the text of a file, or none. *)
Definition filesystem : Type := string -> option string.

(** How [axios.post] ends. The client may refuse the URL before it issues
    any request (a TypeError, as for the empty URL); a request that is
    issued ends in a response of success with its [data], or in a
    rejection (no connection, a status outside 2xx), whose error has the
    status of the response where the client sets it. *)
Inductive reply : Type :=
| Invalid
| Answered (data : value)
| Rejected (status : option Z).

(** What the handlers reach outside the process: [process.env], the
    inference backend behind [axios.post] and the documentation
    renderer. *)
Record world : Type := {
  env : string -> option string;
  post : string -> value -> reply;
  docs : request -> response
}.

(** The names bound in the module: its imports (lines 1-6) and its own
    declarations. *)
Definition imports : list string :=
  ["express"; "z"; "axios"; "swaggerUi"; "OpenAPIV3"; "fs"].

Definition declarations : list string :=
  ["app"; "PORT"; "scalerData"; "QuerySchema"; "openApiSpec"; "normalizeData"].

(** The globals of the runtime that the module reads. The core modules of
    Node, [https] among them, are reached by an import, not as globals. *)
Definition globals : list string := ["process"; "console"; "JSON"; "Number"].

Definition module_scope : list string := (imports ++ declarations ++ globals)%list.

Definition bound (scope : list string) (name : string) : bool :=
  existsb (String.eqb name) scope.

(** Evaluating an identifier: a ReferenceError when nothing binds it. *)
Definition resolve (scope : list string) (name : string) : M unit :=
  if bound scope name then ret tt else throw (ReferenceError name).

Definition PORT : Z := 8080.

(** [fs.readFileSync(path, 'utf-8')]. *)
Definition readFileSync (fs : filesystem) (path : string) : outcome string :=
  match fs path with
  | Some text => Return text
  | None => Throw (SystemError "ENOENT")
  end.

(** Line 12: [const scalerData = JSON.parse(fs.readFileSync('src/scaler.json', 'utf-8'))]. *)
Definition scalerData (fs : filesystem) : outcome value :=
  and_then (readFileSync fs "src/scaler.json") JSON_parse.

(** The state of the running process: the scaler loaded at start. *)
Record server : Type := { scaler : value }.

(** Evaluating the module: the scaler is loaded, then the application
    listens. An exception here ends the process before it serves. *)
Definition start (fs : filesystem) : outcome server :=
  and_then (scalerData fs) (fun v => Return {| scaler := v |}).

(** ** The schema (lines 15-21) *)

(** [val => val === 0 || val === 1]. *)
Definition zero_or_one (val : value) : bool :=
  strict_eq_num val 0 || strict_eq_num val 1.

Definition QuerySchema : Zod.schema :=
  Zod.object
    [("distance", Zod.transform Number Zod.string_);
     ("ratio_to_median", Zod.transform Number Zod.string_);
     ("pin", Zod.refine zero_or_one (Zod.transform Number Zod.string_));
     ("chip", Zod.refine zero_or_one (Zod.transform Number Zod.string_));
     ("online", Zod.refine zero_or_one (Zod.transform Number Zod.string_))].

(** ** The normaliser (lines 123-127) *)

(** The arithmetic of one feature, over any carrier with a subtraction
    and a division: binary64 in the program, the reals in the spec. *)
Class Arith (T : Type) : Type := {
  add : T -> T -> T;
  sub : T -> T -> T;
  mul : T -> T -> T;
  div : T -> T -> T
}.

#[export] Instance float_arith : Arith float :=
  {| add := PrimFloat.add; sub := PrimFloat.sub; mul := PrimFloat.mul; div := PrimFloat.div |}.

#[export] Instance real_arith : Arith R :=
  {| add := Rplus; sub := Rminus; mul := Rmult; div := Rdiv |}.

(** [(value - mean) / scale]. *)
Definition standardize {T : Type} `{Arith T} (value mean scale : T) : T :=
  div (sub value mean) scale.

(** The callback of [data.map]: the two reads of the scaler, then the
    arithmetic, whose operators apply ToNumber to what was read. *)
Definition normalize_at (scaler : Js.value) (index : nat) (v : Js.value) : outcome float :=
  and_then (get_field scaler "mean") (fun mean =>
  and_then (get_index mean index) (fun m =>
  and_then (get_field scaler "scale") (fun scale =>
  and_then (get_index scale index) (fun s =>
  Return (standardize (ToNumber v) (ToNumber m) (ToNumber s)))))).

(** [Array.prototype.map] with the index, stopping at the first throw. *)
Fixpoint map_from {A B : Type} (f : nat -> A -> outcome B) (index : nat) (l : list A)
  : outcome (list B) :=
  match l with
  | [] => Return []
  | a :: r =>
      and_then (f index a) (fun b =>
      and_then (map_from f (S index) r) (fun bs => Return (b :: bs)))
  end.

Definition normalizeData (scaler : Js.value) (data : list Js.value) : outcome (list float) :=
  map_from (normalize_at scaler) 0 data.

(** ** The handlers *)

(** Lines 114-117. *)
Definition error_middleware (err : error) (_ : request) : M action :=
  emit (ConsoleError err) ;;;
  ret (Send (status_json 500 (Obj [("error", Str "Internal server error")]))).

(** Lines 130-132. *)
Definition health (_ : request) : M action :=
  ret (Send (json (Obj [("status", Str "healthy")]))).

(** Lines 182-186. *)
Definition root (_ : request) : M action :=
  ret (Send (json (Obj [("message",
    Str "Welcome to Fraud Detection API. Visit /docs for Swagger documentation")]))).

(** Line 120: the renderer is a collaborator. *)
Definition swagger (w : world) (req : request) : M action :=
  ret (Send (docs w req)).

(** The body of the backend request (lines 155-161). *)
Definition envelope (normalizedData : list float) : Js.value :=
  Obj [("inputs", Arr [Obj [("name", Str "dense_input");
                            ("shape", Arr [Num 1; Num 5]);
                            ("datatype", Str "FP32");
                            ("data", Arr (map Num normalizedData))]])].

(** [process.env.FRAUD_MODEL_URL || ''], a string either way. *)
Definition model_url (w : world) : string :=
  match env w "FRAUD_MODEL_URL" with
  | Some s => s
  | None => ""
  end.

(** [Number(process.env.FRAUD_THRESHOLD || 0.95)]. *)
Definition threshold (w : world) : float :=
  ToNumber (or_else (env w "FRAUD_THRESHOLD") (Num 0.95)).

(** The client's adapter parses the URL before it issues anything. No
    base URL is configured, so the empty URL, which is what [model_url] is
    when [FRAUD_MODEL_URL] is unset or empty, does not parse, whatever the
    world; for any other URL the world decides. *)
Definition http_adapter (w : world) (url : string) (body : Js.value) : reply :=
  if String.eqb url "" then Invalid else post w url body.

(** [axios.post(url, body, ...)], awaited: a URL that is refused is a
    TypeError and no request; a request that is issued is an event. *)
Definition axios_post (w : world) (url : string) (body : Js.value) : M Js.value :=
  match http_adapter w url body with
  | Invalid => throw (TypeError "Invalid URL")
  | Answered data => emit (BackendCall url body) ;;; ret data
  | Rejected st => emit (BackendCall url body) ;;; throw (AxiosError st)
  end.

(** Lines 165-171: the decision and the body of the answer. *)
Definition prediction (fraudProbability : Js.value) (threshold : float) : Js.value :=
  Obj [("is_fraud", Bool (gt_num fraudProbability threshold));
       ("fraud_probability", fraudProbability)].

(** Lines 139-145: the five reads of the validated object, in order. *)
Definition rawData (validatedData : Js.value) : outcome (list Js.value) :=
  and_then (get_field validatedData "distance") (fun distance =>
  and_then (get_field validatedData "ratio_to_median") (fun ratio_to_median =>
  and_then (get_field validatedData "pin") (fun pin =>
  and_then (get_field validatedData "chip") (fun chip =>
  and_then (get_field validatedData "online") (fun online =>
  Return [distance; ratio_to_median; pin; chip; online]))))).

(** Line 165: [response.data.outputs[0].data[0]]. *)
Definition fraudProbability (data : Js.value) : outcome Js.value :=
  and_then (get_field data "outputs") (fun outputs =>
  and_then (get_index outputs 0) (fun output =>
  and_then (get_field output "data") (fun output_data =>
  get_index output_data 0))).

(** The [try] block of lines 136-171. *)
Definition predict_try (scope : list string) (w : world) (s : server) (req : request)
  : M action :=
  validatedData <- lift (Zod.parse QuerySchema (Obj (req_query req))) ;;
  raw <- lift (rawData validatedData) ;;
  normalizedData <- lift (normalizeData (scaler s) raw) ;;
  resolve scope "https" ;;;
  data <- axios_post w (model_url w) (envelope normalizedData) ;;
  probability <- lift (fraudProbability data) ;;
  ret (Send (json (prediction probability (threshold w)))).

(** The [catch] block of lines 172-178. *)
Definition predict_catch (e : error) : M action :=
  match e with
  | ZodError issues =>
      ret (Send (status_json 400 (Obj [("error", Str "Invalid input parameters");
                                       ("details", Arr issues)])))
  | _ => ret (Next (Some e))
  end.

(** Lines 135-179, in a module that binds the names of [scope]. *)
Definition predict_in (scope : list string) (w : world) (s : server) (req : request)
  : M action :=
  try_catch (predict_try scope w s req) predict_catch.

Definition predict : world -> server -> request -> M action :=
  predict_in module_scope.

(** ** The application: the layers in the order they are registered *)

Definition app_in (scope : list string) (w : world) (s : server) : list layer :=
  [ {| mounted := UseAll; handle := ErrorMiddleware error_middleware |};
    {| mounted := Use "/docs"; handle := Middleware (swagger w) |};
    {| mounted := Get "/health"; handle := Middleware health |};
    {| mounted := Get "/predict"; handle := Middleware (predict_in scope w s) |};
    {| mounted := Get "/"; handle := Middleware root |} ].

Definition app : world -> server -> list layer := app_in module_scope.

(** [NODE_ENV], as the application reads it for its final handler. *)
Definition production (w : world) : bool :=
  match env w "NODE_ENV" with
  | Some e => String.eqb e "production"
  | None => false
  end.

Definition testing (w : world) : bool :=
  match env w "NODE_ENV" with
  | Some e => String.eqb e "test"
  | None => false
  end.

(** One request through a stack of layers: the response, the events and
    the state of the process afterwards. *)
Definition serve_with (stack : world -> server -> list layer) (w : world) (s : server)
  (req : request) : response * list event * server :=
  let (r, t) := dispatch (production w) (testing w) (stack w s) req None [] [] in
  (on_wire req r, t, s).

Definition serve : world -> server -> request -> response * list event * server :=
  serve_with app.

Definition response_of (x : response * list event * server) : response := fst (fst x).
Definition events_of (x : response * list event * server) : list event := snd (fst x).
Definition server_of (x : response * list event * server) : server := snd x.

(** ** The same arithmetic over lists of numbers *)

Fixpoint map_index {A B : Type} (f : nat -> A -> B) (index : nat) (l : list A) : list B :=
  match l with
  | [] => []
  | a :: r => f index a :: map_index f (S index) r
  end.

(** [normalizeData] when the scaler holds numbers: [undef] stands for what
    the arithmetic makes of a missing element (NaN in the program). *)
Definition normalize {T : Type} `{Arith T} (undef : T) (mean scale data : list T) : list T :=
  map_index (fun index value => standardize value (nth index mean undef) (nth index scale undef))
            0 data.

(** The spec's inverse transform, [denormalize(y)[i] = y[i] * scale[i] + mean[i]];
    the program has no such function. *)
Definition denormalize {T : Type} `{Arith T} (undef : T) (mean scale data : list T) : list T :=
  map_index (fun index y => add (mul y (nth index scale undef)) (nth index mean undef))
            0 data.

(** A scaler artifact holding two arrays of numbers. *)
Definition scaler_of (mean scale : list float) : Js.value :=
  Obj [("mean", Arr (map Num mean)); ("scale", Arr (map Num scale))].

(** ** Requests and scenarios *)

Definition predict_request (query : list (string * Js.value)) : request :=
  {| req_method := GET; req_path := "/predict"; req_query := query |}.

Definition health_request (query : list (string * Js.value)) : request :=
  {| req_method := GET; req_path := "/health"; req_query := query |}.

(** A query string with one value per key. *)
Definition query_of (pairs : list (string * string)) : list (string * Js.value) :=
  map (fun kv => (fst kv, Str (snd kv))) pairs.

Definition required : list string :=
  ["distance"; "ratio_to_median"; "pin"; "chip"; "online"].

Definition flags : list string := ["pin"; "chip"; "online"].

(** An issue of a ZodError refers to a field through its [path]. *)
Definition references (field : string) (issue : Js.value) : Prop :=
  get_field issue "path" = Return (Arr [Str field]).

(** The body of the 400 answer. *)
Definition invalid_input (issues : list Js.value) : response :=
  status_json 400 (Obj [("error", Str "Invalid input parameters"); ("details", Arr issues)]).

(** The scenario of the spec: [distance=10, ratio_to_median=1.2, pin=1,
    chip=1, online=0] with [mean=[5,1,0.5,0.5,0.5]] and
    [scale=[2,0.5,0.5,0.5,0.5]]. *)
Definition scenario_query : list (string * Js.value) :=
  query_of [("distance", "10"); ("ratio_to_median", "1.2");
            ("pin", "1"); ("chip", "1"); ("online", "0")].

Definition scenario_raw : list Js.value := [Num 10; Num 1.2; Num 1; Num 1; Num 0].

Definition scenario_mean : list float := [5; 1; 0.5; 0.5; 0.5]%float.
Definition scenario_scale : list float := [2; 0.5; 0.5; 0.5; 0.5]%float.

Definition quoted (s : string) : string := String dquote s ++ String dquote "".

Definition scenario_text : string :=
  "{" ++ quoted "mean" ++ ": [5, 1, 0.5, 0.5, 0.5], "
      ++ quoted "scale" ++ ": [2, 0.5, 0.5, 0.5, 0.5]}".

Definition only_scaler (text : string) : filesystem :=
  fun path => if String.eqb path "src/scaler.json" then Some text else None.

Definition no_files : filesystem := fun _ => None.

Definition scenario_server : server := {| scaler := scaler_of scenario_mean scenario_scale |}.

(** A backend that answers [{"outputs":[{"data":[0.97]}]}], and one that
    cannot be reached. *)
Definition answering (w : string -> option string) : world :=
  {| env := w;
     post := fun _ _ => Answered (Obj [("outputs", Arr [Obj [("data", Arr [Num 0.97])]])]);
     docs := fun _ => {| status := 200; content := Rendered |} |}.

Definition unreachable (w : string -> option string) : world :=
  {| env := w;
     post := fun _ _ => Rejected None;
     docs := fun _ => {| status := 200; content := Rendered |} |}.

Definition no_env : string -> option string := fun _ => None.

(** An environment that sets [FRAUD_MODEL_URL] and nothing else. *)
Definition model_url_text : string := "https://model.internal/v2/models/fraud/infer".

Definition model_env : string -> option string :=
  fun name => if String.eqb name "FRAUD_MODEL_URL" then Some model_url_text else None.

(** The requests a call issues: none when the client refuses the URL. *)
Definition issued (w : world) (url : string) (body : Js.value) : list event :=
  match http_adapter w url body with
  | Invalid => []
  | _ => [BackendCall url body]
  end.

(** What the final handler logs for an error. *)
Definition logged (w : world) (e : error) : list event := onerror (testing w) (Some e).

(** An artifact with two elements per array and a zero scale. *)
Definition short_text : string :=
  "{" ++ quoted "mean" ++ ": [1, 2], " ++ quoted "scale" ++ ": [0, 1]}".

(** The two ways a query breaks the schema that the spec names: a flag
    whose number is neither 0 nor 1, and a required key that is absent. *)
Definition out_of_domain (query : list (string * Js.value)) (field : string) : Prop :=
  In field flags /\
  exists text, lookup field query = Some (Str text) /\
               zero_or_one (Number (Str text)) = false.

Definition missing (query : list (string * Js.value)) (field : string) : Prop :=
  In field required /\ lookup field query = None.

(** The schema of a number and the schema of a flag. *)
Definition number_field : Zod.schema := Zod.transform Number Zod.string_.
Definition flag_field : Zod.schema := Zod.refine zero_or_one number_field.

(** The steps between validation and the backend call. *)
Definition prepared (s : server) (v : Js.value) : outcome (list float) :=
  and_then (rawData v) (normalizeData (scaler s)).

(** A run of requests against one process. *)
Fixpoint serve_all (w : world) (s : server) (reqs : list request) : server :=
  match reqs with
  | [] => s
  | req :: rest => serve_all w (server_of (serve w s req)) rest
  end.

(** The queries of the scenarios: [pin=2], [distance=abc], [pin=] and a
    query with no [online]. *)
Definition pin_two : list (string * Js.value) :=
  query_of [("distance", "10"); ("ratio_to_median", "1.2");
            ("pin", "2"); ("chip", "1"); ("online", "0")].

Definition distance_abc : list (string * Js.value) :=
  query_of [("distance", "abc"); ("ratio_to_median", "1.2");
            ("pin", "1"); ("chip", "1"); ("online", "0")].

Definition pin_empty : list (string * Js.value) :=
  query_of [("distance", "10"); ("ratio_to_median", "1.2");
            ("pin", ""); ("chip", "1"); ("online", "0")].

Definition without_online : list (string * Js.value) :=
  query_of [("distance", "10"); ("ratio_to_median", "1.2");
            ("pin", "1"); ("chip", "1")].

(** A query in which every required key is a string and every flag reads
    as 0 or 1. *)
Definition acceptable (query : list (string * Js.value)) : Prop :=
  forall field, In field required ->
    exists text, lookup field query = Some (Str text) /\
                 (In field flags -> zero_or_one (Number (Str text)) = true).

(** What the program computes for the scenario of the spec. *)
Definition scenario_normalized : list float := [2.5; 0.39999999999999991; 1; 1; -1]%float.

(** The scenario's scaler and vector as reals. *)
Definition real_mean : list R := [5; 1; 1 / 2; 1 / 2; 1 / 2]%R.
Definition real_scale : list R := [2; 1 / 2; 1 / 2; 1 / 2; 1 / 2]%R.
Definition real_vector : list R := [5 / 2; 2 / 5; 1; 1; -1]%R.

(** The process started on [short_text], and on the artifact [{}]. *)
Definition short_server : server := {| scaler := scaler_of [1; 2]%float [0; 1]%float |}.

Definition empty_server : server := {| scaler := Obj [] |}.

(** The backend calls made for one request to [/predict]. *)
Definition calls_of (scope : list string) (w : world) (s : server)
  (query : list (string * Js.value)) : list (string * Js.value) :=
  backend_calls (events_of (serve_with (app_in scope) w s (predict_request query))).

(** ** Notions for the further properties *)

(** [undefined] and [null], on which a property read throws. *)
Definition nullish (v : Js.value) : bool :=
  match v with
  | Undefined | Null => true
  | _ => false
  end.


Definition is_flag (field : string) : bool := existsb (String.eqb field) flags.

(** A field of the query that the schema does not accept: its value is
    not a string (it is absent, repeated or bracketed), or the field is a
    flag and the string reads as neither 0 nor 1. *)
Definition offending (query : list (string * Js.value)) (field : string) : bool :=
  match Zod.input field query with
  | Str text => is_flag field && negb (zero_or_one (Number (Str text)))
  | _ => true
  end.

(** The issue the schema raises on an offending field. *)
Definition issue_for (field : string) (v : Js.value) : Js.value :=
  match v with
  | Str _ => Zod.custom [field]
  | _ => Zod.invalid_type "string" v [field]
  end.

Definition request_of (m : method) (path : string) (query : list (string * Js.value))
  : request :=
  {| req_method := m; req_path := path; req_query := query |}.

(** The answers of the two static routes and of the error middleware. *)
Definition healthy : response := json (Obj [("status", Str "healthy")]).

Definition welcome : response :=
  json (Obj [("message",
             Str "Welcome to Fraud Detection API. Visit /docs for Swagger documentation")]).

Definition internal_server_error : response :=
  status_json 500 (Obj [("error", Str "Internal server error")]).

(** A query with a key the schema does not know, and one with [pin]
    given twice. *)
Definition scenario_with_extra : list (string * Js.value) :=
  (scenario_query ++ [("verbose", Str "1")])%list.

Definition pin_repeated : list (string * Js.value) :=
  [("distance", Str "10"); ("ratio_to_median", Str "1.2");
   ("pin", Arr [Str "1"; Str "1"]); ("chip", Str "1"); ("online", Str "7")].


(** The three routes of the application. *)
Definition routed (path : string) : bool :=
  route_matches "/health" path || route_matches "/predict" path || route_matches "/" path.

(** An environment that sets [FRAUD_THRESHOLD] and nothing else. *)
Definition threshold_env (text : string) : string -> option string :=
  fun name => if String.eqb name "FRAUD_THRESHOLD" then Some text else None.

(* ================================================================== *)
(** * Properties *)
(* ================================================================== *)

(** ** Dispatch *)

Section Dispatch.

Variables (scope : list string) (w : world) (s : server).

(** The layers a request meets, in order: the error middleware is passed
    while no error exists; [/docs] takes every method; the three routes
    take GET and HEAD, and an OPTIONS request that meets one of them is
    answered with their methods; what is left, and what the prediction
    handler passes to [next], ends in the final handler. *)
Lemma serve_routes (req : request) :
  serve_with (app_in scope) w s req =
  if layer_matches (Use "/docs") req then (on_wire req (docs w req), [], s)
  else
    match req_method req with
    | GET | HEAD =>
        if route_matches "/health" (req_path req) then (on_wire req healthy, [], s)
        else if route_matches "/predict" (req_path req) then
          match predict_in scope w s req [] with
          | (Return (Send r), t) => (on_wire req r, t, s)
          | (Return (Next (Some e)), t) | (Throw e, t) =>
              (on_wire req (finalhandler (production w) req (Some e)),
               (t ++ logged w e)%list, s)
          | (Return (Next None), t) =>
              if route_matches "/" (req_path req) then (on_wire req welcome, t, s)
              else (on_wire req (finalhandler (production w) req None), (t ++ [])%list, s)
          end
        else if route_matches "/" (req_path req) then (on_wire req welcome, [], s)
        else (on_wire req (finalhandler (production w) req None), [], s)
    | OPTIONS =>
        if route_matches "/health" (req_path req)
           || route_matches "/predict" (req_path req)
           || route_matches "/" (req_path req)
        then ({| status := 200; content := Allow ["GET"; "HEAD"] |}, [], s)
        else (finalhandler (production w) req None, [], s)
    | _ => (finalhandler (production w) req None, [], s)
    end.
Proof.
  destruct req as [m p q].
  unfold serve_with, app_in, logged.
  cbn [dispatch mounted handle layer_matches req_method req_path].
  destruct (prefix_matches "/docs" p); [ reflexivity | ].
  destruct m; cbn [offers req_method req_path];
    try (destruct (route_matches "/health" p); [ reflexivity | ];
         destruct (route_matches "/predict" p);
         [ destruct (predict_in scope w s _ []) as [[[r | [e |]] | e] t]; try reflexivity;
           destruct (route_matches "/" p); reflexivity
         | destruct (route_matches "/" p); reflexivity ]);
    try reflexivity.
  destruct (route_matches "/health" p), (route_matches "/predict" p),
    (route_matches "/" p); reflexivity.
Qed.

(** A request for [/predict] reaches the prediction handler with no error
    pending, and what the handler passes to [next] meets no later error
    handler: the final handler answers, and the error is logged. *)
Lemma serve_predict (query : list (string * Js.value)) :
  serve_with (app_in scope) w s (predict_request query) =
  match predict_in scope w s (predict_request query) [] with
  | (Return (Send r), t) => (r, t, s)
  | (Return (Next e), t) =>
      (finalhandler (production w) (predict_request query) e,
       (t ++ onerror (testing w) e)%list, s)
  | (Throw e, t) =>
      (finalhandler (production w) (predict_request query) (Some e),
       (t ++ logged w e)%list, s)
  end.
Proof.
  rewrite serve_routes.
  change (layer_matches (Use "/docs") (predict_request query)) with false.
  cbn [req_method req_path predict_request].
  change (route_matches "/health" "/predict") with false.
  change (route_matches "/predict" "/predict") with true.
  change (route_matches "/" "/predict") with false.
  cbv iota.
  destruct (predict_in scope w s (predict_request query) []) as [[[r | [e |]] | e] t];
    reflexivity.
Qed.

Lemma serve_health (query : list (string * Js.value)) :
  serve_with (app_in scope) w s (health_request query) =
  (json (Obj [("status", Str "healthy")]), [], s).
Proof. reflexivity. Qed.

End Dispatch.

(** ** Property reads throw a TypeError or nothing *)

Lemma get_field_throws (v : Js.value) (k : string) (e : error) :
  get_field v k = Throw e -> exists m, e = TypeError m.
Proof. destruct v; cbn; intro H; inversion H; unfold cannot_read; eauto. Qed.

Lemma get_index_throws (v : Js.value) (i : nat) (e : error) :
  get_index v i = Throw e -> exists m, e = TypeError m.
Proof.
  destruct v; unfold get_index; intro H; inversion H; unfold cannot_read; eauto.
Qed.

Lemma fraudProbability_throws (data : Js.value) (e : error) :
  fraudProbability data = Throw e -> exists m, e = TypeError m.
Proof.
  unfold fraudProbability, and_then.
  destruct (get_field data "outputs") as [outputs |] eqn:E1;
    [ | intro H; inversion H; subst; eauto using get_field_throws ].
  destruct (get_index outputs 0) as [output |] eqn:E2;
    [ | intro H; inversion H; subst; eauto using get_index_throws ].
  destruct (get_field output "data") as [output_data |] eqn:E3;
    [ | intro H; inversion H; subst; eauto using get_field_throws ].
  apply get_index_throws.
Qed.

(** ** The prediction handler, case by case *)

Section Predict.

Variables (scope : list string) (w : world) (s : server).
Variable query : list (string * Js.value).

Let req := predict_request query.

(** [QuerySchema.parse] throws nothing but a ZodError. *)
Lemma parse_throws (sch : Zod.schema) (data : Js.value) (e : error) :
  Zod.parse sch data = Throw e -> exists issues, e = ZodError issues.
Proof.
  unfold Zod.parse. destruct (sch [] data) as [[v | v |] issues]; intro H;
    inversion H; eauto.
Qed.

(** A validation failure is answered on the spot, with no event. *)
Lemma predict_invalid (issues : list Js.value) :
  Zod.parse QuerySchema (Obj query) = Throw (ZodError issues) ->
  predict_in scope w s req [] = (Return (Send (invalid_input issues)), []).
Proof.
  intro H. unfold predict_in, try_catch, predict_try, bind, lift.
  cbn -[bound Zod.parse QuerySchema normalizeData rawData fraudProbability].
  rewrite H. reflexivity.
Qed.

(** A throw of the normaliser goes to [next], before any call. *)
Lemma predict_unprepared (v : Js.value) (e : error) :
  Zod.parse QuerySchema (Obj query) = Return v ->
  prepared s v = Throw e ->
  (forall issues, e <> ZodError issues) ->
  predict_in scope w s req [] = (Return (Next (Some e)), []).
Proof.
  intros Hp Hn Hz. unfold predict_in, try_catch, predict_try, bind, lift.
  cbn -[bound Zod.parse QuerySchema normalizeData rawData fraudProbability].
  rewrite Hp. unfold prepared, and_then in Hn.
  destruct (rawData v) as [raw | e1].
  - rewrite Hn. destruct e; try reflexivity. now destruct (Hz issues).
  - inversion Hn; subst. destruct e; try reflexivity. now destruct (Hz issues).
Qed.

(** Without a binding of [https] the handler stops at line 152. *)
Lemma predict_unbound (v : Js.value) (n : list float) :
  Zod.parse QuerySchema (Obj query) = Return v ->
  prepared s v = Return n ->
  bound scope "https" = false ->
  predict_in scope w s req [] = (Return (Next (Some (ReferenceError "https"))), []).
Proof.
  intros Hp Hn Hs. unfold predict_in, try_catch, predict_try, bind, lift, resolve.
  cbn -[bound Zod.parse QuerySchema normalizeData rawData fraudProbability].
  rewrite Hp. unfold prepared, and_then in Hn.
  destruct (rawData v) as [raw | e1]; [ | discriminate ].
  rewrite Hn, Hs. reflexivity.
Qed.

(** With one, [axios.post] is called; unless the client refuses the URL,
    one request is issued, and its outcome decides. *)
Lemma predict_bound (v : Js.value) (n : list float) :
  Zod.parse QuerySchema (Obj query) = Return v ->
  prepared s v = Return n ->
  bound scope "https" = true ->
  predict_in scope w s req [] =
  (match http_adapter w (model_url w) (envelope n) with
   | Invalid => Return (Next (Some (TypeError "Invalid URL")))
   | Answered data =>
       match fraudProbability data with
       | Return p => Return (Send (json (prediction p (threshold w))))
       | Throw e => Return (Next (Some e))
       end
   | Rejected st => Return (Next (Some (AxiosError st)))
   end,
   issued w (model_url w) (envelope n)).
Proof.
  intros Hp Hn Hs.
  unfold predict_in, try_catch, predict_try, bind, lift, resolve, axios_post, emit, issued.
  cbn -[bound Zod.parse QuerySchema normalizeData rawData fraudProbability].
  rewrite Hp. unfold prepared, and_then in Hn.
  destruct (rawData v) as [raw | e1]; [ | discriminate ].
  rewrite Hn, Hs. cbn -[fraudProbability].
  destruct (http_adapter w (model_url w) (envelope n)) as [| data | st];
    cbn -[fraudProbability]; [ reflexivity | | reflexivity ].
  destruct (fraudProbability data) as [p | e] eqn:E; [ reflexivity | ].
  destruct (fraudProbability_throws data e E) as [m ->]. reflexivity.
Qed.

End Predict.

(** ** The schema *)

Section Schema.

Import Zod.

Variables (shape : list (string * schema)) (path : list string).
Variable fields : list (string * Js.value).

(** Every issue of a key is an issue of the object. *)
Lemma parse_shape_issue (key : string) (sch : schema) (issue : Js.value) :
  In (key, sch) shape ->
  In issue (snd (sch (path ++ [key])%list (input key fields))) ->
  In issue (snd (parse_shape shape path fields)).
Proof.
  induction shape as [| [k s0] rest IH]; cbn [parse_shape]; [ intros [] | ].
  intros [Heq | Hin] Hi;
    destruct (s0 (path ++ [k])%list (input k fields)) as [r0 is0] eqn:E0;
    destruct (parse_shape rest path fields) as [rs is1]; cbn [snd] in *;
    apply in_or_app.
  - inversion Heq; subst. rewrite E0 in Hi. now left.
  - right. now apply IH.
Qed.

(** One key that is not valid leaves the object not valid. *)
Lemma parse_shape_invalid (key : string) (sch : schema) :
  In (key, sch) shape ->
  (forall a, fst (sch (path ++ [key])%list (input key fields)) <> Valid a) ->
  forall a, merge_object (fst (parse_shape shape path fields)) <> Valid a.
Proof.
  induction shape as [| [k s0] rest IH]; cbn [parse_shape]; [ intros [] | ].
  intros Hin Hbad a;
    destruct (s0 (path ++ [k])%list (input k fields)) as [r0 is0] eqn:E0;
    destruct (parse_shape rest path fields) as [rs is1] eqn:E1;
    cbn [fst merge_object] in *.
  destruct Hin as [Heq | Hin].
  - inversion Heq; subst. rewrite E0 in Hbad. cbn [fst] in Hbad.
    destruct r0 as [v0 | v0 |]; [ now destruct (Hbad v0) | | ];
      destruct (merge_object rs) as [[] | [] |]; discriminate.
  - specialize (IH Hin Hbad).
    destruct r0 as [v0 | v0 |];
      destruct (merge_object rs) as [m | m |]; try discriminate;
      try (now destruct (IH m)); destruct m; discriminate.
Qed.

End Schema.

Section Fields.

Import Zod.

Lemma number_field_missing (path : list string) :
  number_field path Undefined = (Aborted, [invalid_type "string" Undefined path]).
Proof. reflexivity. Qed.

Lemma flag_field_missing (path : list string) :
  flag_field path Undefined = (Aborted, [invalid_type "string" Undefined path]).
Proof. reflexivity. Qed.

Lemma flag_field_string (path : list string) (text : string) :
  flag_field path (Str text) =
  if zero_or_one (Number (Str text)) then (Valid (Number (Str text)), [])
  else (Dirty (Number (Str text)), [custom path]).
Proof.
  unfold flag_field, refine, number_field, transform, string_.
  destruct (zero_or_one (Number (Str text))); reflexivity.
Qed.

Lemma number_field_string (path : list string) (text : string) :
  number_field path (Str text) = (Valid (Number (Str text)), []).
Proof. reflexivity. Qed.

Lemma invalid_type_references (expected key : string) (v : Js.value) :
  references key (invalid_type expected v [key]).
Proof. reflexivity. Qed.

Lemma custom_references (key : string) : references key (custom [key]).
Proof. reflexivity. Qed.

(** The schema of every required key. *)
Lemma required_in_shape (field : string) :
  In field required ->
  In (field, number_field) [("distance", number_field); ("ratio_to_median", number_field)]
  \/ In (field, flag_field) [("pin", flag_field); ("chip", flag_field); ("online", flag_field)].
Proof.
  unfold required. cbn [In].
  intros [<- | [<- | [<- | [<- | [<- | []]]]]]; cbn [In]; auto 6.
Qed.

(** A query that breaks the schema in one of the two ways is rejected
    with an issue that refers to the field. *)
Lemma QuerySchema_rejects (query : list (string * Js.value)) (field : string) :
  out_of_domain query field \/ missing query field ->
  exists issues issue,
    parse QuerySchema (Obj query) = Throw (ZodError issues) /\
    In issue issues /\ references field issue.
Proof.
  intro H.
  assert (exists sch issue,
             In (field, sch)
                [("distance", number_field); ("ratio_to_median", number_field);
                 ("pin", flag_field); ("chip", flag_field); ("online", flag_field)] /\
             (forall a, fst (sch ([] ++ [field])%list (input field query)) <> Valid a) /\
             In issue (snd (sch ([] ++ [field])%list (input field query))) /\
             references field issue) as (sch & issue & Hin & Hbad & Hissue & Href).
  { destruct H as [[Hf (text & Hl & Hz)] | [Hr Hl]].
    - exists flag_field, (custom [field]). unfold input. rewrite Hl.
      rewrite flag_field_string, Hz. cbn [fst snd app].
      split; [ | split; [ discriminate | split; [ now left | apply custom_references ] ] ].
      unfold flags in Hf. cbn [In] in *.
      destruct Hf as [<- | [<- | [<- | []]]]; auto 6.
    - unfold input. rewrite Hl.
      destruct (required_in_shape field Hr) as [Hn | Hg].
      + exists number_field, (invalid_type "string" Undefined [field]).
        cbn [app]. rewrite number_field_missing. cbn [fst snd].
        split; [ | split; [ discriminate | split; [ now left | apply invalid_type_references ] ] ].
        cbn [In] in *. destruct Hn as [Hn | [Hn | []]]; auto.
      + exists flag_field, (invalid_type "string" Undefined [field]).
        cbn [app]. rewrite flag_field_missing. cbn [fst snd].
        split; [ | split; [ discriminate | split; [ now left | apply invalid_type_references ] ] ].
        cbn [In] in *. destruct Hg as [Hg | [Hg | [Hg | []]]]; auto 6. }
  pose proof (parse_shape_issue _ [] query field sch issue Hin Hissue) as Hi.
  pose proof (parse_shape_invalid _ [] query field sch Hin Hbad) as Hv.
  unfold parse, QuerySchema, object. fold number_field. fold flag_field.
  destruct (parse_shape _ [] query) as [pairs issues] eqn:E.
  cbn [fst snd] in *.
  exists issues, issue.
  destruct (merge_object pairs) as [m | m |]; [ now destruct (Hv m) | | ]; auto.
Qed.

End Fields.

Section Accepts.

Import Zod.

Variable query : list (string * Js.value).
Variables distance ratio_to_median pin chip online : string.

Hypothesis Hdistance : lookup "distance" query = Some (Str distance).
Hypothesis Hratio : lookup "ratio_to_median" query = Some (Str ratio_to_median).
Hypothesis Hpin : lookup "pin" query = Some (Str pin).
Hypothesis Hchip : lookup "chip" query = Some (Str chip).
Hypothesis Honline : lookup "online" query = Some (Str online).
Hypothesis Hpin01 : zero_or_one (Number (Str pin)) = true.
Hypothesis Hchip01 : zero_or_one (Number (Str chip)) = true.
Hypothesis Honline01 : zero_or_one (Number (Str online)) = true.

(** Five strings whose flags read as 0 or 1 pass, whatever the two other
    strings are; the validated object holds [Number] of each string, in
    the order of the schema. *)
Lemma QuerySchema_accepts :
  parse QuerySchema (Obj query) =
  Return (Obj [("distance", Number (Str distance));
               ("ratio_to_median", Number (Str ratio_to_median));
               ("pin", Number (Str pin));
               ("chip", Number (Str chip));
               ("online", Number (Str online))]).
Proof.
  unfold parse, QuerySchema, object. fold number_field. fold flag_field.
  cbn [parse_shape app]. unfold input.
  rewrite Hdistance, Hratio, Hpin, Hchip, Honline.
  rewrite !number_field_string, !flag_field_string.
  rewrite Hpin01, Hchip01, Honline01. reflexivity.
Qed.

Lemma rawData_accepted :
  and_then (parse QuerySchema (Obj query)) rawData =
  Return [Number (Str distance); Number (Str ratio_to_median);
          Number (Str pin); Number (Str chip); Number (Str online)].
Proof. rewrite QuerySchema_accepts. reflexivity. Qed.

End Accepts.

(** ** What the steps before the call can throw *)

Lemma normalize_at_throws (sc v : Js.value) (i : nat) (e : error) :
  normalize_at sc i v = Throw e -> exists m, e = TypeError m.
Proof.
  unfold normalize_at, and_then.
  destruct (get_field sc "mean") as [mean |] eqn:E1; [ | intro H; inversion H; subst; eauto using get_field_throws ].
  destruct (get_index mean i) as [m |] eqn:E2; [ | intro H; inversion H; subst; eauto using get_index_throws ].
  destruct (get_field sc "scale") as [scale |] eqn:E3; [ | intro H; inversion H; subst; eauto using get_field_throws ].
  destruct (get_index scale i) as [x |] eqn:E4; [ | intro H; inversion H; subst; eauto using get_index_throws ].
  discriminate.
Qed.

Lemma normalizeData_throws (sc : Js.value) (data : list Js.value) (e : error) :
  normalizeData sc data = Throw e -> exists m, e = TypeError m.
Proof.
  unfold normalizeData. generalize 0%nat.
  induction data as [| v rest IH]; intros i; cbn [map_from]; [ discriminate | ].
  unfold and_then at 1.
  destruct (normalize_at sc i v) as [x |] eqn:E;
    [ | intro H; inversion H; subst; eauto using normalize_at_throws ].
  unfold and_then.
  destruct (map_from (normalize_at sc) (S i) rest) as [xs |] eqn:E';
    [ discriminate | ].
  intro H; inversion H; subst. eauto.
Qed.

Lemma rawData_throws (v : Js.value) (e : error) :
  rawData v = Throw e -> exists m, e = TypeError m.
Proof.
  unfold rawData, and_then.
  repeat match goal with
         | |- context [match get_field ?a ?k with _ => _ end] =>
             let E := fresh "E" in
             destruct (get_field a k) eqn:E;
             [ | intro H; inversion H; subst; eauto using get_field_throws ]
         end.
  discriminate.
Qed.

Lemma prepared_throws (s : server) (v : Js.value) (e : error) :
  prepared s v = Throw e -> exists m, e = TypeError m.
Proof.
  unfold prepared, and_then.
  destruct (rawData v) as [raw |] eqn:E.
  - apply normalizeData_throws.
  - intro H; inversion H; subst. eauto using rawData_throws.
Qed.

(** ** The program as written: [https] is not bound *)

Lemma https_unbound : bound module_scope "https" = false.
Proof. reflexivity. Qed.

(** A validated request never reaches the backend: it ends in the final
    handler, on the throw of the normaliser or on the unbound name, and
    the error is logged. *)
Lemma serve_validated (w : world) (s : server) (query : list (string * Js.value))
  (v : Js.value) :
  Zod.parse QuerySchema (Obj query) = Return v ->
  exists e,
    (e = ReferenceError "https" \/ exists m, e = TypeError m) /\
    serve w s (predict_request query) =
    ({| status := 500;
        content := Html (if production w then StatusMessage 500 else StackTrace e) |},
     logged w e, s).
Proof.
  intro Hp. unfold serve, app. rewrite serve_predict.
  destruct (prepared s v) as [n | e] eqn:En.
  - rewrite (predict_unbound _ w s query v n Hp En https_unbound).
    exists (ReferenceError "https"). split; [ now left | reflexivity ].
  - destruct (prepared_throws s v e En) as [m ->].
    rewrite (predict_unprepared _ w s query v _ Hp En); [ | discriminate ].
    exists (TypeError m). split; [ right; eauto | reflexivity ].
Qed.

(** A rejected request is answered with the issues, in any scope. *)
Lemma serve_rejected (scope : list string) (w : world) (s : server)
  (query : list (string * Js.value)) (issues : list Js.value) :
  Zod.parse QuerySchema (Obj query) = Throw (ZodError issues) ->
  serve_with (app_in scope) w s (predict_request query) = (invalid_input issues, [], s).
Proof.
  intro Hp. rewrite serve_predict, (predict_invalid scope w s query issues Hp).
  reflexivity.
Qed.

(** A validated request is never answered as a validation failure, in
    any scope. *)
Lemma validated_not_rejected (scope : list string) (w : world) (s : server)
  (query : list (string * Js.value)) (v : Js.value) (issues : list Js.value) :
  Zod.parse QuerySchema (Obj query) = Return v ->
  response_of (serve_with (app_in scope) w s (predict_request query))
  <> invalid_input issues.
Proof.
  intro Hp. rewrite serve_predict.
  destruct (prepared s v) as [n | e] eqn:Hn.
  - destruct (bound scope "https") eqn:Hs.
    + rewrite (predict_bound scope w s query v n Hp Hn Hs).
      unfold issued; destruct (http_adapter w _ _) as [| data | st];
        [ | destruct (fraudProbability data) | ];
        cbn -[finalhandler stringified]; intro H;
        first [ apply (f_equal status) in H; discriminate
              | apply (f_equal content) in H; discriminate ].
    + rewrite (predict_unbound scope w s query v n Hp Hn Hs).
      cbn -[finalhandler]. intro H. apply (f_equal content) in H. discriminate.
  - destruct (prepared_throws s v e Hn) as [m ->].
    rewrite (predict_unprepared scope w s query v _ Hp Hn); [ | discriminate ].
    cbn -[finalhandler]. intro H. apply (f_equal content) in H. discriminate.
Qed.

(** ** The requests a run issues *)

Lemma backend_calls_app (t1 t2 : list event) :
  backend_calls (t1 ++ t2) = (backend_calls t1 ++ backend_calls t2)%list.
Proof. apply flat_map_app. Qed.

Lemma backend_calls_onerror (testing : bool) (err : option error) :
  backend_calls (onerror testing err) = [].
Proof. destruct err; [ destruct testing | ]; reflexivity. Qed.

Lemma backend_calls_issued (w : world) (url : string) (body : Js.value) :
  backend_calls (issued w url body) =
  match http_adapter w url body with
  | Invalid => []
  | _ => [(url, body)]
  end.
Proof. unfold issued. destruct (http_adapter w url body); reflexivity. Qed.

(** The final handler issues nothing: the requests of a run are those of
    the prediction handler. *)
Lemma serve_predict_calls (scope : list string) (w : world) (s : server)
  (query : list (string * Js.value)) :
  backend_calls (events_of (serve_with (app_in scope) w s (predict_request query)))
  = backend_calls (snd (predict_in scope w s (predict_request query) [])).
Proof.
  rewrite serve_predict.
  destruct (predict_in scope w s (predict_request query) []) as [[[r | e] | e] t];
    unfold events_of, logged; cbn [fst snd]; try reflexivity;
    now rewrite backend_calls_app, backend_calls_onerror, app_nil_r.
Qed.

(** The requests of the prediction handler, case by case: none on a
    validation failure, none when the normaliser throws, none when
    [https] is not bound, none when the client refuses the URL, and one
    otherwise. *)
Lemma predict_calls (scope : list string) (w : world) (s : server)
  (query : list (string * Js.value)) :
  backend_calls (snd (predict_in scope w s (predict_request query) [])) =
  match Zod.parse QuerySchema (Obj query) with
  | Throw _ => []
  | Return v =>
      match prepared s v with
      | Throw _ => []
      | Return n =>
          if bound scope "https"
          then match http_adapter w (model_url w) (envelope n) with
               | Invalid => []
               | _ => [(model_url w, envelope n)]
               end
          else []
      end
  end.
Proof.
  destruct (Zod.parse QuerySchema (Obj query)) as [v | e] eqn:Hp.
  - destruct (prepared s v) as [n | e] eqn:Hn.
    + destruct (bound scope "https") eqn:Hs.
      * rewrite (predict_bound scope w s query v n Hp Hn Hs). cbn [snd].
        apply backend_calls_issued.
      * now rewrite (predict_unbound scope w s query v n Hp Hn Hs).
    + destruct (prepared_throws s v e Hn) as [m ->].
      now rewrite (predict_unprepared scope w s query v _ Hp Hn).
  - destruct (parse_throws _ _ _ Hp) as [issues ->].
    now rewrite (predict_invalid scope w s query issues Hp).
Qed.

(** Whatever the request, the requests of a run are none or those of the
    prediction handler. *)
Lemma serve_calls (scope : list string) (w : world) (s : server) (req : request) :
  backend_calls (events_of (serve_with (app_in scope) w s req)) = [] \/
  backend_calls (events_of (serve_with (app_in scope) w s req))
  = backend_calls (snd (predict_in scope w s req [])).
Proof.
  rewrite serve_routes. unfold events_of, logged.
  destruct (layer_matches (Use "/docs") req); [ now left | ].
  destruct (req_method req); try (now left);
    try (destruct (route_matches "/health" (req_path req)
                   || route_matches "/predict" (req_path req)
                   || route_matches "/" (req_path req)); now left);
    (destruct (route_matches "/health" (req_path req)); [ now left | ];
     destruct (route_matches "/predict" (req_path req));
     [ | destruct (route_matches "/" (req_path req)); now left ];
     right; destruct (predict_in scope w s req []) as [[[r | [e' |]] | e'] t];
     try destruct (route_matches "/" (req_path req)); cbn [fst snd];
     rewrite ?app_nil_r, ?backend_calls_app, ?backend_calls_onerror, ?app_nil_r;
     reflexivity).
Qed.

(** A path that meets [/predict] does not meet [/health]. *)
Lemma predict_route_only (path : string) :
  route_matches "/predict" path = true -> route_matches "/health" path = false.
Proof.
  unfold route_matches. intro H. apply orb_true_iff in H.
  destruct H as [H | H];
    [ | apply andb_true_iff in H; destruct H as [_ H] ];
    apply String.eqb_eq in H; rewrite H; reflexivity.
Qed.

(* ================================================================== *)
(** * The claims *)
(* ================================================================== *)

(** C6: a request for [/predict] in which [pin], [chip] or [online] reads
    as a number other than 0 and 1 (a non-integer or NaN included), or in
    which one of the five required keys is absent, is answered 400 with
    the body [{error: 'Invalid input parameters', details}], where
    [details] holds an issue whose path is the field; nothing else
    happens. So it is for [pin=2]. *)
Theorem C6_flag_outside_domain_or_missing_key_is_400
  (scope : list string) (w : world) (s : server)
  (query : list (string * Js.value)) (field : string) :
  out_of_domain query field \/ missing query field ->
  exists issues issue,
    serve_with (app_in scope) w s (predict_request query) = (invalid_input issues, [], s) /\
    status (invalid_input issues) = 400 /\
    In issue issues /\ references field issue.
Proof.
  intro H.
  destruct (QuerySchema_rejects query field H) as (issues & issue & Hp & Hin & Href).
  exists issues, issue.
  split; [ now apply serve_rejected | ]. auto.
Qed.

Lemma C6_witness_pin_two :
  (out_of_domain pin_two "pin" /\
   exists issues issue,
     serve (answering no_env) scenario_server (predict_request pin_two)
     = (invalid_input issues, [], scenario_server) /\
     status (invalid_input issues) = 400 /\
     In issue issues /\ references "pin" issue) /\
  (missing without_online "online" /\
   exists issues issue,
     serve (answering no_env) scenario_server (predict_request without_online)
     = (invalid_input issues, [], scenario_server) /\
     status (invalid_input issues) = 400 /\
     In issue issues /\ references "online" issue).
Proof.
  assert (H : out_of_domain pin_two "pin").
  { split; [ cbn; auto | exists "2"; split; vm_compute; reflexivity ]. }
  assert (H' : missing without_online "online").
  { split; [ cbn; auto 6 | reflexivity ]. }
  split; (split; [ assumption | ]).
  - exact (C6_flag_outside_domain_or_missing_key_is_400
             module_scope (answering no_env) scenario_server pin_two "pin" (or_introl H)).
  - exact (C6_flag_outside_domain_or_missing_key_is_400
             module_scope (answering no_env) scenario_server without_online "online"
             (or_intror H')).
Defined.

(** C1, at the input on which the code departs from it: with
    [distance=abc] the schema returns a validated object whose [distance]
    is NaN, no issue is raised, and the answer is not the 400 of a
    validation failure: the program as written ends in the final handler
    with 500, and a module that binds [https] sends NaN to the backend. *)
Theorem C1_non_numeric_distance_is_accepted :
  Zod.parse QuerySchema (Obj distance_abc)
  = Return (Obj [("distance", Num nan); ("ratio_to_median", Num 1.2);
                 ("pin", Num 1); ("chip", Num 1); ("online", Num 0)]) /\
  serve (answering no_env) scenario_server (predict_request distance_abc)
  = ({| status := 500; content := Html (StackTrace (ReferenceError "https")) |},
     [ErrorLogged (ReferenceError "https")], scenario_server) /\
  serve_with (app_in ("https" :: module_scope)) (answering model_env) scenario_server
             (predict_request distance_abc)
  = (json (Obj [("is_fraud", Bool true); ("fraud_probability", Num 0.97)]),
     [BackendCall model_url_text (envelope [nan; 0.39999999999999991; 1; 1; -1]%float)],
     scenario_server).
Proof. repeat split; vm_compute; reflexivity. Qed.

(** The part of C1 that the code meets: an absent required key is
    answered 400 with a list of issues that is not empty, and no feature
    vector is built. *)
Lemma missing_key_is_400 (scope : list string) (w : world) (s : server)
  (query : list (string * Js.value)) (field : string) :
  missing query field ->
  exists issues,
    issues <> [] /\
    serve_with (app_in scope) w s (predict_request query) = (invalid_input issues, [], s).
Proof.
  intro H.
  destruct (QuerySchema_rejects query field (or_intror H)) as (issues & issue & Hp & Hin & _).
  exists issues. split; [ | now apply serve_rejected ].
  intros ->. destruct Hin.
Qed.

Lemma acceptable_accepted (query : list (string * Js.value)) :
  acceptable query ->
  exists d r p c o,
    lookup "distance" query = Some (Str d) /\
    lookup "ratio_to_median" query = Some (Str r) /\
    lookup "pin" query = Some (Str p) /\
    lookup "chip" query = Some (Str c) /\
    lookup "online" query = Some (Str o) /\
    Zod.parse QuerySchema (Obj query) =
    Return (Obj [("distance", Number (Str d)); ("ratio_to_median", Number (Str r));
                 ("pin", Number (Str p)); ("chip", Number (Str c));
                 ("online", Number (Str o))]).
Proof.
  intro H.
  destruct (H "distance") as (d & Hd & _); [ cbn; auto | ].
  destruct (H "ratio_to_median") as (r & Hr & _); [ cbn; auto | ].
  destruct (H "pin") as (p & Hp & Hp1); [ cbn; auto | ].
  destruct (H "chip") as (c & Hc & Hc1); [ cbn; auto | ].
  destruct (H "online") as (o & Ho & Ho1); [ cbn; auto 6 | ].
  exists d, r, p, c, o. repeat (split; [ assumption | ]).
  apply QuerySchema_accepts; auto; [ apply Hp1 | apply Hc1 | apply Ho1 ]; cbn; auto.
Qed.

(** C10: for [pin], [chip] and [online] alike, the empty string passes the
    schema as the number 0: [Number('')] is 0, which meets the check. A
    query that is otherwise acceptable is validated with 0 in that field;
    the answer of the program does not have status 400, and in no scope
    is it the answer of a validation failure. *)
Theorem C10_empty_flag_is_validated_as_zero
  (w : world) (s : server) (query : list (string * Js.value)) (field : string) :
  In field flags ->
  lookup field query = Some (Str "") ->
  acceptable query ->
  flag_field [field] (Str "") = (Zod.Valid (Num 0), []) /\
  (exists v, Zod.parse QuerySchema (Obj query) = Return v /\
             get_field v field = Return (Num 0)) /\
  status (response_of (serve w s (predict_request query))) <> 400 /\
  (forall scope issues,
      response_of (serve_with (app_in scope) w s (predict_request query))
      <> invalid_input issues).
Proof.
  intros Hf Hl Ha.
  split; [ reflexivity | ].
  destruct (acceptable_accepted query Ha) as (d & r & p & c & o & Hd & Hr & Hp & Hc & Ho & Hv).
  split; [ | split ].
  - eexists. split; [ exact Hv | ].
    unfold flags in Hf. cbn [In] in Hf.
    destruct Hf as [<- | [<- | [<- | []]]];
      [ rewrite Hp in Hl | rewrite Hc in Hl | rewrite Ho in Hl ];
      inversion Hl; subst; reflexivity.
  - destruct (serve_validated w s query _ Hv) as (e & _ & ->).
    cbn. discriminate.
  - intros scope issues. now apply (validated_not_rejected scope w s query _ issues Hv).
Qed.

Lemma C10_witness_pin_empty :
  flag_field ["pin"] (Str "") = (Zod.Valid (Num 0), []) /\
  (exists v, Zod.parse QuerySchema (Obj pin_empty) = Return v /\
             get_field v "pin" = Return (Num 0)) /\
  status (response_of (serve (answering no_env) scenario_server (predict_request pin_empty)))
  <> 400 /\
  (forall scope issues,
      response_of (serve_with (app_in scope) (answering no_env) scenario_server
                              (predict_request pin_empty))
      <> invalid_input issues).
Proof.
  apply (C10_empty_flag_is_validated_as_zero (answering no_env) scenario_server pin_empty "pin").
  - cbn; auto.
  - reflexivity.
  - intros field Hf. unfold required in Hf. cbn [In] in Hf.
    destruct Hf as [<- | [<- | [<- | [<- | [<- | []]]]]];
      eexists; (split; [ reflexivity | ]); intro Hin;
      first [ vm_compute; reflexivity
            | exfalso; unfold flags in Hin; cbn [In] in Hin; intuition discriminate ].
Defined.

(** C9: a GET of [/health] is answered 200 with the body
    [{status: 'healthy'}] whatever the backend, the environment, the
    scaler and the query are; the handler causes no event and leaves the
    process as it was. *)
Theorem C9_health_is_always_healthy
  (w : world) (s : server) (query : list (string * Js.value)) :
  serve w s (health_request query)
  = ({| status := 200; content := Json (Obj [("status", Str "healthy")]) |}, [], s).
Proof. apply serve_health. Qed.

(** ** The decision *)

(** IEEE comparison: two numbers that are equal are not one below the
    other. *)
Lemma SFcompare_eq_sym (x y : spec_float) :
  SFcompare x y = Some Eq -> SFcompare y x = Some Eq.
Proof.
  destruct x as [sx | sx | | sx mx ex], y as [sy | sy | | sy my ey]; cbn;
    try discriminate; try reflexivity;
    try (destruct sx; discriminate); try (destruct sy; discriminate).
  - destruct sx, sy; try discriminate; reflexivity.
  - destruct sx, sy; try discriminate;
      destruct (ex ?= ey) eqn:E; try discriminate;
      apply Z.compare_eq in E; subst; rewrite Z.compare_refl;
      destruct (Pos.compare_cont Eq mx my) eqn:E'; try discriminate;
      apply Pos.compare_eq in E'; subst; rewrite Pos.compare_cont_refl; reflexivity.
Qed.

Lemma equal_is_not_above (p t : float) : ((p =? t) && (t <? p))%float = false.
Proof.
  rewrite eqb_spec, ltb_spec. unfold SFeqb, SFltb.
  destruct (SFcompare (Prim2SF p) (Prim2SF t)) as [[] |] eqn:E; try reflexivity.
  now rewrite (SFcompare_eq_sym _ _ E).
Qed.

Lemma not_above_itself (t : float) : (t <? t)%float = false.
Proof.
  rewrite ltb_spec. unfold SFltb.
  destruct (SFcompare (Prim2SF t) (Prim2SF t)) as [[] |] eqn:E; try reflexivity.
  destruct (Prim2SF t) as [s | s | | s m e]; cbn in E; try discriminate;
    try (destruct s; discriminate).
  rewrite Z.compare_refl, Pos.compare_cont_refl in E. destruct s; discriminate.
Qed.

(** C5: for every number [p] returned as the probability and every
    threshold [t], the answer is [{is_fraud: p > t, fraud_probability: p}]
    with [p] unchanged; the comparison is strict, so a probability equal
    to the threshold (the same number, or +0 against -0) is not fraud; the
    threshold is [Number(process.env.FRAUD_THRESHOLD || 0.95)]. *)
Theorem C5_strict_threshold_decision (p t : float) :
  prediction (Num p) t = Obj [("is_fraud", Bool (t <? p)%float); ("fraud_probability", Num p)] /\
  prediction (Num t) t = Obj [("is_fraud", Bool false); ("fraud_probability", Num t)] /\
  ((p =? t) && (t <? p))%float = false /\
  threshold (answering no_env) = 0.95%float.
Proof.
  split; [ reflexivity | ]. split.
  - unfold prediction, gt_num. cbn [ToNumber]. now rewrite not_above_itself.
  - split; [ apply equal_is_not_above | vm_compute; reflexivity ].
Qed.

(** ** The normaliser *)

Lemma ToNumber_nth (l : list float) (i : nat) :
  ToNumber (nth i (map Num l) Undefined) = nth i l nan.
Proof.
  revert i. induction l as [| x r IH]; intros [| i]; cbn [map nth]; auto.
Qed.

Lemma length_map_index {A B : Type} (f : nat -> A -> B) (k : nat) (l : list A) :
  List.length (map_index f k l) = List.length l.
Proof.
  revert k. induction l as [| a r IH]; intro k; cbn [map_index List.length]; auto.
Qed.

Lemma nth_map_index {A B : Type} (f : nat -> A -> B) (k : nat) (l : list A)
  (i : nat) (a : A) (b : B) :
  (i < List.length l)%nat -> nth i (map_index f k l) b = f (k + i)%nat (nth i l a).
Proof.
  revert k i. induction l as [| x r IH]; intros k [| i] Hi; cbn [List.length] in Hi;
    try lia; cbn [map_index nth].
  - now rewrite Nat.add_0_r.
  - rewrite IH by lia. f_equal. lia.
Qed.

(** On a scaler of numbers the program computes [normalize] in binary64,
    with NaN where the scaler has no element. *)
Lemma normalizeData_numbers (mean scale raw : list float) :
  normalizeData (scaler_of mean scale) (map Num raw) = Return (normalize nan mean scale raw).
Proof.
  unfold normalizeData, normalize. generalize 0%nat.
  induction raw as [| x r IH]; intro k; cbn [map map_from map_index]; [ reflexivity | ].
  rewrite IH. unfold normalize_at, scaler_of. cbn [get_field lookup String.eqb Ascii.eqb Bool.eqb and_then get_index].
  cbn [and_then]. now rewrite !ToNumber_nth.
Qed.

(** C4, as the code has it: on a scaler of numbers the normaliser returns
    the vector of [(raw[i] - mean[i]) / scale[i]], each operation rounded
    to binary64; for the scenario of the spec the validated features are
    [10, 1.2, 1, 1, 0] and the vector is
    [2.5, 0.39999999999999991, 1, 1, -1], whose second element is
    [(1.2 - 1) / 0.5] in binary64; every backend call made for that
    request carries this vector as the [data] of [dense_input]. *)
Theorem C4_normalized_vector_in_binary64 :
  (forall (mean scale raw : list float) (i : nat),
      (i < List.length raw)%nat ->
      exists out,
        normalizeData (scaler_of mean scale) (map Num raw) = Return out /\
        List.length out = List.length raw /\
        nth i out nan = ((nth i raw nan - nth i mean nan) / nth i scale nan)%float) /\
  and_then (Zod.parse QuerySchema (Obj scenario_query)) rawData = Return scenario_raw /\
  normalizeData (scaler scenario_server) scenario_raw = Return scenario_normalized /\
  (forall (scope : list string) (w : world) (url : string) (body : Js.value),
      In (url, body)
         (backend_calls
            (events_of (serve_with (app_in scope) w scenario_server
                                   (predict_request scenario_query)))) ->
      body = envelope scenario_normalized).
Proof.
  split; [ | split; [ | split ] ].
  - intros mean scale raw i Hi. exists (normalize nan mean scale raw).
    split; [ apply normalizeData_numbers | ].
    unfold normalize. split; [ apply length_map_index | ].
    now rewrite (nth_map_index _ 0 raw i nan nan Hi).
  - vm_compute. reflexivity.
  - vm_compute. reflexivity.
  - intros scope w url body.
    assert (Hp : Zod.parse QuerySchema (Obj scenario_query)
                 = Return (Obj [("distance", Num 10); ("ratio_to_median", Num 1.2);
                                ("pin", Num 1); ("chip", Num 1); ("online", Num 0)]))
      by (vm_compute; reflexivity).
    assert (Hn : prepared scenario_server
                   (Obj [("distance", Num 10); ("ratio_to_median", Num 1.2);
                         ("pin", Num 1); ("chip", Num 1); ("online", Num 0)])
                 = Return scenario_normalized)
      by (vm_compute; reflexivity).
    rewrite serve_predict_calls, predict_calls, Hp, Hn.
    destruct (bound scope "https"); [ | intros [] ].
    destruct (http_adapter w _ _); [ intros [] | | ]; intros [H | []]; now inversion H.
Qed.

Lemma C4_witness_scenario :
  (exists out,
      normalizeData (scaler_of scenario_mean scenario_scale)
                    (map Num [10; 1.2; 1; 1; 0]%float) = Return out /\
      List.length out = 5%nat /\
      nth 1 out nan = ((1.2 - 1) / 0.5)%float) /\
  (forall url body,
      In (url, body)
         (backend_calls
            (events_of (serve_with (app_in ("https" :: module_scope)) (answering model_env)
                                   scenario_server (predict_request scenario_query)))) ->
      body = envelope scenario_normalized).
Proof.
  split.
  - apply (proj1 C4_normalized_vector_in_binary64
                 scenario_mean scenario_scale [10; 1.2; 1; 1; 0]%float 1%nat).
    cbn. lia.
  - intros url body.
    apply (proj2 (proj2 (proj2 C4_normalized_vector_in_binary64))).
Defined.

(** The vector of the spec's scenario is not the one the program
    computes: in binary64 [(1.2 - 1) / 0.5] lies two units in the last place
    below 0.4. *)
Lemma C4_counterexample_binary64 :
  normalizeData (scaler scenario_server) scenario_raw
  <> Return [2.5; 0.4; 1; 1; -1]%float.
Proof.
  intro H.
  assert (E : match normalizeData (scaler scenario_server) scenario_raw with
              | Return l => (nth 1 l nan =? 0.4)%float
              | Throw _ => false
              end = true) by (rewrite H; vm_compute; reflexivity).
  vm_compute in E. discriminate.
Qed.

(** ** Over the reals *)

Section Reals.

Local Open Scope R_scope.

Variable undef : R.

Lemma standardize_inverts (y mean scale : R) :
  scale <> 0 -> standardize (add (mul y scale) mean) mean scale = y.
Proof. intro H. unfold standardize. cbn [add mul sub div real_arith]. now field. Qed.

Lemma normalize_denormalize_from (mean scale x : list R) (k : nat) :
  (forall i, (i < List.length x)%nat -> nth (k + i) scale undef <> 0) ->
  map_index (fun index value =>
               standardize value (nth index mean undef) (nth index scale undef)) k
    (map_index (fun index y =>
                  add (mul y (nth index scale undef)) (nth index mean undef)) k x)
  = x.
Proof.
  revert k. induction x as [| y r IH]; intros k H; cbn [map_index]; [ reflexivity | ].
  f_equal.
  - apply standardize_inverts. specialize (H 0%nat). rewrite Nat.add_0_r in H.
    apply H. cbn. lia.
  - apply IH. intros i Hi. replace (S k + i)%nat with (k + S i)%nat by lia.
    apply H. cbn. lia.
Qed.

End Reals.

(** In binary64 the round trip is not exact: on the scenario's scaler the
    vector [2.5, 0.4, 1, 1, -1] comes back with its second element two
    units in the last place lower, within 1e-15 of where it started. *)
Lemma round_trip_in_binary64 :
  let x := [2.5; 0.4; 1; 1; -1]%float in
  let y := normalize nan scenario_mean scenario_scale
                     (denormalize nan scenario_mean scenario_scale x) in
  y = scenario_normalized /\
  forallb (fun ab => (abs (fst ab - snd ab) <=? 1e-15)%float) (combine x y) = true.
Proof. split; vm_compute; reflexivity. Qed.

(** C7, as the code has it: the normaliser is a function, the same affine
    map on every element: on a scaler of numbers the program computes
    [normalize] in binary64. Over the reals [normalize] inverts
    [denormalize] exactly, for every vector of five elements and every
    scaler of five means and five scales none of which is zero. In
    binary64 this is a fact of particular inputs, not of all: on the
    scenario's scaler the vector [2.5, 0.4, 1, 1, -1] comes back within
    1e-15, and not exactly. *)
Theorem C7_normalize_inverts_denormalize
  (undef : R) (mean scale x : list R) :
  List.length mean = 5%nat ->
  List.length scale = 5%nat ->
  List.length x = 5%nat ->
  Forall (fun s => s <> 0%R) scale ->
  normalize undef mean scale (denormalize undef mean scale x) = x /\
  (forall m s raw : list float,
      normalizeData (scaler_of m s) (map Num raw) = Return (normalize nan m s raw)) /\
  (let v := [2.5; 0.4; 1; 1; -1]%float in
   let y := normalize nan scenario_mean scenario_scale
                      (denormalize nan scenario_mean scenario_scale v) in
   y <> v /\
   forallb (fun ab => (abs (fst ab - snd ab) <=? 1e-15)%float) (combine v y) = true).
Proof.
  intros Hm Hs Hx Hz. split; [ | split; [ apply normalizeData_numbers | ] ].
  - unfold normalize, denormalize. apply normalize_denormalize_from.
    intros i Hi. cbn [Nat.add].
    rewrite Forall_forall in Hz. apply Hz, nth_In. lia.
  - destruct round_trip_in_binary64 as [Hy Hclose]. cbv zeta in Hy, Hclose |- *.
    split; [ | exact Hclose ].
    rewrite Hy. intro H.
    assert (E : (nth 1 scenario_normalized 0 =? 0.4)%float = true)
      by (rewrite H; vm_compute; reflexivity).
    vm_compute in E. discriminate.
Qed.

Lemma C7_witness_scenario :
  normalize 0%R real_mean real_scale (denormalize 0%R real_mean real_scale real_vector)
  = real_vector.
Proof.
  apply (C7_normalize_inverts_denormalize 0%R real_mean real_scale real_vector);
    try reflexivity.
  unfold real_scale. repeat constructor; lra.
Defined.

(** In binary64 the round trip holds within no tolerance for all inputs:
    with a mean of 1e17 and a scale of 1 the element 1 is absorbed by the
    sum and comes back as 0; with a scale of 1e200 the element 1e200
    overflows in the product and comes back as infinity. No scale here is
    zero, and the program computes exactly this on the denormalised
    vector. *)
Lemma C7_counterexample_binary64 :
  let mean := [1e17; 0; 0; 0; 0]%float in
  let scale := [1; 1e200; 1; 1; 1]%float in
  let x := [1; 1e200; 0; 0; 0]%float in
  forallb (fun sc => negb (is_zero sc) && is_finite sc) scale = true /\
  forallb is_finite x = true /\
  denormalize nan mean scale x = [1e17; infinity; 0; 0; 0]%float /\
  normalize nan mean scale (denormalize nan mean scale x) = [0; infinity; 0; 0; 0]%float /\
  normalizeData (scaler_of mean scale) (map Num (denormalize nan mean scale x))
  = Return [0; infinity; 0; 0; 0]%float.
Proof. repeat split; vm_compute; reflexivity. Qed.

(** ** The scaler at start *)

(** No handler writes to the state of the process. *)
Lemma serve_keeps_server (w : world) (s : server) (req : request) :
  server_of (serve w s req) = s.
Proof.
  unfold serve, serve_with, server_of.
  destruct (dispatch _ _ _ _ _ _ _). reflexivity.
Qed.

Lemma JSON_parse_throws (text : string) (e : error) :
  JSON_parse text = Throw e -> e = SyntaxError.
Proof.
  unfold JSON_parse.
  destruct (parse_value _ _) as [[v r] |]; [ destruct (skip_ws r) | ];
    intro H; inversion H; reflexivity.
Qed.

(** C3, as the code has it: the process fails at start when the scaler
    file is absent or its text is not JSON, and on nothing else: whatever
    JSON value the text holds becomes the scaler, with no check on the
    number of elements or on a zero scale; no request changes the scaler
    afterwards. *)
Theorem C3_start_fails_on_absent_or_malformed_only (fs : filesystem) :
  (fs "src/scaler.json" = None -> start fs = Throw (SystemError "ENOENT")) /\
  (forall text e,
      fs "src/scaler.json" = Some text -> JSON_parse text = Throw e ->
      start fs = Throw e /\ e = SyntaxError) /\
  (forall text v,
      fs "src/scaler.json" = Some text -> JSON_parse text = Return v ->
      start fs = Return {| scaler := v |}) /\
  (forall w s reqs, serve_all w s reqs = s).
Proof.
  unfold start, scalerData, readFileSync, and_then.
  split; [ intros -> ; reflexivity | ].
  split; [ intros text e -> He; rewrite He; split;
           [ reflexivity | now apply (JSON_parse_throws text) ] | ].
  split; [ intros text v -> Hv; now rewrite Hv | ].
  intros w s reqs. induction reqs as [| req rest IH]; cbn [serve_all];
    [ reflexivity | now rewrite serve_keeps_server ].
Qed.

Lemma C3_witness_start :
  start no_files = Throw (SystemError "ENOENT") /\
  start (only_scaler "{") = Throw SyntaxError /\
  start (only_scaler scenario_text) = Return scenario_server.
Proof.
  split; [ | split ].
  - apply (proj1 (C3_start_fails_on_absent_or_malformed_only no_files)). reflexivity.
  - apply (proj1 (proj2 (C3_start_fails_on_absent_or_malformed_only (only_scaler "{")))
             "{" SyntaxError); vm_compute; reflexivity.
  - apply (proj1 (proj2 (proj2 (C3_start_fails_on_absent_or_malformed_only
                                  (only_scaler scenario_text))))
             scenario_text); vm_compute; reflexivity.
Defined.

(** An artifact with two elements in each array and a zero scale does not
    stop the process: it starts, with that scaler. *)
Lemma C3_counterexample_short_scaler_starts :
  start (only_scaler short_text) = Return short_server.
Proof. vm_compute. reflexivity. Qed.

(** ** Backend calls *)

(** C8, as the code has it: a request that fails validation makes no
    backend call; no request makes more than one; a validated request
    makes its call, exactly one and with the normalised vector, when the
    steps before the call complete (the normaliser returns, and the
    module binds the name [https] that line 152 reads) and the client
    accepts the URL, and it makes none otherwise. *)
Theorem C8_no_call_when_invalid_and_at_most_one
  (scope : list string) (w : world) (s : server) (query : list (string * Js.value)) :
  calls_of scope w s query =
  match Zod.parse QuerySchema (Obj query) with
  | Throw _ => []
  | Return v =>
      match prepared s v with
      | Throw _ => []
      | Return n =>
          if bound scope "https"
          then match http_adapter w (model_url w) (envelope n) with
               | Invalid => []
               | _ => [(model_url w, envelope n)]
               end
          else []
      end
  end /\
  (List.length (calls_of scope w s query) <= 1)%nat /\
  (forall issues,
      Zod.parse QuerySchema (Obj query) = Throw (ZodError issues) ->
      calls_of scope w s query = []) /\
  (forall v e,
      Zod.parse QuerySchema (Obj query) = Return v ->
      prepared s v = Throw e ->
      calls_of scope w s query = []) /\
  (forall v n,
      Zod.parse QuerySchema (Obj query) = Return v ->
      prepared s v = Return n ->
      bound scope "https" = false ->
      calls_of scope w s query = []) /\
  (forall v n,
      Zod.parse QuerySchema (Obj query) = Return v ->
      prepared s v = Return n ->
      bound scope "https" = true ->
      http_adapter w (model_url w) (envelope n) <> Invalid ->
      calls_of scope w s query = [(model_url w, envelope n)]).
Proof.
  unfold calls_of. rewrite serve_predict_calls, predict_calls.
  split; [ reflexivity | ]. split; [ | split; [ | split; [ | split ] ] ].
  - destruct (Zod.parse QuerySchema (Obj query)) as [v | e]; [ | cbn; lia ].
    destruct (prepared s v) as [n | e]; [ | cbn; lia ].
    destruct (bound scope "https"); [ | cbn; lia ].
    destruct (http_adapter w (model_url w) (envelope n)); cbn; lia.
  - intros issues ->. reflexivity.
  - intros v e -> ->. reflexivity.
  - intros v n -> -> ->. reflexivity.
  - intros v n -> -> -> Hpost.
    destruct (http_adapter w (model_url w) (envelope n));
      [ now destruct Hpost | | ]; reflexivity.
Qed.

Lemma C8_witness_scenario :
  calls_of module_scope (answering model_env) scenario_server pin_two = [] /\
  calls_of ("https" :: module_scope) (answering model_env) empty_server scenario_query = [] /\
  calls_of module_scope (answering model_env) scenario_server scenario_query = [] /\
  calls_of ("https" :: module_scope) (answering model_env) scenario_server scenario_query
  = [(model_url_text, envelope scenario_normalized)].
Proof.
  split; [ | split; [ | split ] ].
  - eapply (proj1 (proj2 (proj2 (C8_no_call_when_invalid_and_at_most_one
                                   module_scope (answering model_env)
                                   scenario_server pin_two)))).
    vm_compute. reflexivity.
  - eapply (proj1 (proj2 (proj2 (proj2 (C8_no_call_when_invalid_and_at_most_one
                                          ("https" :: module_scope) (answering model_env)
                                          empty_server scenario_query)))));
      vm_compute; reflexivity.
  - apply (proj1 (proj2 (proj2 (proj2 (proj2 (C8_no_call_when_invalid_and_at_most_one
                                                module_scope (answering model_env)
                                                scenario_server scenario_query)))))
             (Obj [("distance", Num 10); ("ratio_to_median", Num 1.2);
                   ("pin", Num 1); ("chip", Num 1); ("online", Num 0)])
             scenario_normalized);
      vm_compute; reflexivity.
  - apply (proj2 (proj2 (proj2 (proj2 (proj2 (C8_no_call_when_invalid_and_at_most_one
                                                ("https" :: module_scope)
                                                (answering model_env)
                                                scenario_server scenario_query)))))
             (Obj [("distance", Num 10); ("ratio_to_median", Num 1.2);
                   ("pin", Num 1); ("chip", Num 1); ("online", Num 0)])
             scenario_normalized);
      try (vm_compute; reflexivity).
    vm_compute. discriminate.
Defined.

(** A request that passes validation and makes no backend call: the
    scaler artifact [{}] loads, the normaliser throws on its missing
    [mean], and the handler goes to [next]; this is so whether or not the
    module binds [https]. *)
Lemma C8_counterexample_validated_without_call :
  start (only_scaler "{}") = Return empty_server /\
  Zod.parse QuerySchema (Obj scenario_query)
  = Return (Obj [("distance", Num 10); ("ratio_to_median", Num 1.2);
                 ("pin", Num 1); ("chip", Num 1); ("online", Num 0)]) /\
  calls_of module_scope (answering model_env) empty_server scenario_query = [] /\
  calls_of ("https" :: module_scope) (answering model_env) empty_server scenario_query = [].
Proof. repeat split; vm_compute; reflexivity. Qed.

(** In the program as written no request for [/predict] reaches the
    backend at all. *)
Lemma no_backend_call_as_written (w : world) (s : server)
  (query : list (string * Js.value)) :
  calls_of module_scope w s query = [].
Proof.
  unfold calls_of. rewrite serve_predict_calls, predict_calls, https_unbound.
  destruct (Zod.parse QuerySchema (Obj query)) as [v | e]; [ | reflexivity ].
  destruct (prepared s v); reflexivity.
Qed.

(** ** Downstream failures *)

(** C2, at the input on which the code departs from it: with a backend
    that cannot be reached, the scenario's request is answered by the
    final handler, 500 with a page that shows the error, and not by the
    error middleware with [{error: 'Internal server error'}]; the
    middleware logs nothing, for it never runs: the one report of the
    error is the final handler's. This holds for the program as written,
    where the failure is the unbound [https], and for a module that binds
    [https], where it is the rejected call. *)
Theorem C2_downstream_failure_is_answered_by_the_final_handler :
  serve (unreachable no_env) scenario_server (predict_request scenario_query)
  = ({| status := 500; content := Html (StackTrace (ReferenceError "https")) |},
     [ErrorLogged (ReferenceError "https")], scenario_server) /\
  serve_with (app_in ("https" :: module_scope)) (unreachable model_env) scenario_server
             (predict_request scenario_query)
  = ({| status := 500; content := Html (StackTrace (AxiosError None)) |},
     [BackendCall model_url_text (envelope scenario_normalized);
      ErrorLogged (AxiosError None)],
     scenario_server).
Proof. split; vm_compute; reflexivity. Qed.

(** What the prediction handler adds to the trace is a backend call. *)
Lemma predict_events (scope : list string) (w : world) (s : server) (req : request)
  (ev : event) :
  In ev (snd (predict_in scope w s req [])) -> exists url body, ev = BackendCall url body.
Proof.
  change (predict_in scope w s req [])
    with (predict_in scope w s (predict_request (req_query req)) []).
  destruct (Zod.parse QuerySchema (Obj (req_query req))) as [v | e] eqn:Hp.
  - destruct (prepared s v) as [n | e] eqn:Hn.
    + destruct (bound scope "https") eqn:Hs.
      * rewrite (predict_bound scope w s _ v n Hp Hn Hs). cbn [snd]. unfold issued.
        destruct (http_adapter w _ _); [ intros [] | | ]; intros [<- | []]; eauto.
      * rewrite (predict_unbound scope w s _ v n Hp Hn Hs). intros [].
    + destruct (prepared_throws s v e Hn) as [m ->].
      rewrite (predict_unprepared scope w s _ v _ Hp Hn); [ intros [] | discriminate ].
  - destruct (parse_throws _ _ _ Hp) as [issues ->].
    rewrite (predict_invalid scope w s _ issues Hp). intros [].
Qed.

(** Registered before every route, the error middleware is passed before
    any error exists: it runs for no request, and the [console.error] of
    line 115 is never executed. *)
Lemma error_middleware_never_runs (scope : list string) (w : world) (s : server)
  (req : request) (e : error) :
  ~ In (ConsoleError e) (events_of (serve_with (app_in scope) w s req)).
Proof.
  rewrite serve_routes. unfold events_of, logged.
  destruct (layer_matches (Use "/docs") req); [ intros [] | ].
  destruct (req_method req); try (intros []);
    try (destruct (route_matches "/health" (req_path req)
                   || route_matches "/predict" (req_path req)
                   || route_matches "/" (req_path req)); intros []);
    (destruct (route_matches "/health" (req_path req)); [ intros [] | ];
     destruct (route_matches "/predict" (req_path req));
     [ | destruct (route_matches "/" (req_path req)); intros [] ];
     pose proof (predict_events scope w s req (ConsoleError e)) as H;
     destruct (predict_in scope w s req []) as [[[r | [e' |]] | e'] t];
     cbn [snd fst] in *; try destruct (route_matches "/" (req_path req));
     cbn [snd fst]; rewrite ?in_app_iff; intro Hin;
     repeat match goal with
            | Hx : _ \/ _ |- _ => destruct Hx as [Hx | Hx]
            end;
     try (destruct (H Hin) as (u & b & Hev); discriminate);
     try (now destruct Hin);
     unfold onerror in Hin; destruct (testing w); cbn [In] in Hin;
     intuition discriminate).
Qed.

(** The status of the final handler's answer to an error without a
    [status] of its own. *)
Lemma finalhandler_plain_error (production : bool) (req : request) (e : error) :
  error_status e = None ->
  status (finalhandler production req (Some e)) = 500 /\
  forall v, content (finalhandler production req (Some e)) <> Json v.
Proof.
  intro H. unfold finalhandler. rewrite H. cbn. split; [ reflexivity | discriminate ].
Qed.

(* ================================================================== *)
(** * Further properties of the program *)
(* ================================================================== *)

(** ** The schema, field by field *)

Section Report.

Import Zod.

Lemma parse_shape_issues (shape : list (string * schema)) (path : list string)
  (fields : list (string * Js.value)) :
  snd (parse_shape shape path fields) =
  flat_map (fun ks => snd (snd ks (path ++ [fst ks])%list (input (fst ks) fields))) shape.
Proof.
  induction shape as [| [k s0] rest IH]; cbn [parse_shape flat_map fst snd];
    [ reflexivity | ].
  destruct (s0 (path ++ [k])%list (input k fields)) as [r0 is0].
  destruct (parse_shape rest path fields) as [rs is1].
  cbn [snd] in *. now rewrite IH.
Qed.

Lemma parse_shape_same_inputs (shape : list (string * schema)) (path : list string)
  (f1 f2 : list (string * Js.value)) :
  (forall ks, In ks shape -> input (fst ks) f1 = input (fst ks) f2) ->
  parse_shape shape path f1 = parse_shape shape path f2.
Proof.
  induction shape as [| [k s0] rest IH]; intro H; cbn [parse_shape]; [ reflexivity | ].
  pose proof (H (k, s0) (or_introl eq_refl)) as Hk. cbn [fst] in Hk. rewrite Hk.
  rewrite IH; [ reflexivity | ]. intros ks Hin. apply H. now right.
Qed.

Lemma number_field_issues (key : string) (query : list (string * Js.value)) :
  is_flag key = false ->
  snd (number_field [key] (input key query)) =
  if offending query key then [issue_for key (input key query)] else [].
Proof.
  intro H. unfold offending. rewrite H.
  destruct (input key query); reflexivity.
Qed.

Lemma flag_field_issues (key : string) (query : list (string * Js.value)) :
  is_flag key = true ->
  snd (flag_field [key] (input key query)) =
  if offending query key then [issue_for key (input key query)] else [].
Proof.
  intro H. unfold offending. rewrite H.
  destruct (input key query) as [| | | | text | |]; try reflexivity.
  rewrite flag_field_string. cbn [andb].
  now destruct (zero_or_one (Number (Str text))).
Qed.

Lemma issue_for_references (key : string) (v : Js.value) :
  references key (issue_for key v).
Proof. destruct v; reflexivity. Qed.

(** The issues of the schema: one for each offending field, in the order
    of the schema. *)
Lemma QuerySchema_issues (query : list (string * Js.value)) :
  snd (QuerySchema [] (Obj query)) =
  map (fun key => issue_for key (input key query)) (filter (offending query) required).
Proof.
  unfold QuerySchema, object. fold number_field. fold flag_field.
  destruct (parse_shape _ [] query) as [pairs issues] eqn:E.
  apply (f_equal snd) in E. rewrite parse_shape_issues in E.
  cbn [snd flat_map fst app] in *. subst issues.
  rewrite !app_nil_l, app_nil_r.
  rewrite !number_field_issues, !flag_field_issues by reflexivity.
  unfold required. cbn [filter].
  destruct (offending query "distance"), (offending query "ratio_to_median"),
    (offending query "pin"), (offending query "chip"), (offending query "online");
    reflexivity.
Qed.

End Report.

Section Validation.

Import Zod.

Variable query : list (string * Js.value).

Lemma input_string (key text : string) :
  input key query = Str text <-> lookup key query = Some (Str text).
Proof.
  unfold input. destruct (lookup key query) as [v |]; split; intro H;
    try discriminate; now inversion H.
Qed.

Lemma is_flag_In (key : string) : is_flag key = true <-> In key flags.
Proof.
  unfold is_flag. rewrite existsb_exists. split.
  - intros (x & Hin & Heq). apply String.eqb_eq in Heq. now subst.
  - intro H. exists key. split; [ assumption | apply String.eqb_refl ].
Qed.

Lemma acceptable_no_offender :
  acceptable query <-> forall field, In field required -> offending query field = false.
Proof.
  unfold acceptable, offending. split; intros H field Hf.
  - destruct (H field Hf) as (text & Hl & Hz).
    apply input_string in Hl. rewrite Hl.
    destruct (is_flag field) eqn:E; [ | reflexivity ].
    apply is_flag_In in E. now rewrite (Hz E).
  - specialize (H field Hf).
    destruct (input field query) as [| | | | text | |] eqn:E; try discriminate.
    exists text. split; [ now apply input_string | ].
    intro Hin. apply is_flag_In in Hin. rewrite Hin in H. cbn [andb] in H.
    now destruct (zero_or_one (Number (Str text))).
Qed.

(** An offending field is parsed to a result that is not valid. *)
Lemma offending_not_valid (field : string) :
  In field required ->
  offending query field = true ->
  exists sch,
    In (field, sch)
       [("distance", number_field); ("ratio_to_median", number_field);
        ("pin", flag_field); ("chip", flag_field); ("online", flag_field)] /\
    forall a, fst (sch ([] ++ [field])%list (input field query)) <> Valid a.
Proof.
  intros Hf Ho. unfold offending in Ho. rewrite app_nil_l.
  unfold required in Hf. cbn [In] in Hf.
  destruct Hf as [<- | [<- | [<- | [<- | [<- | []]]]]];
    [ exists number_field | exists number_field
      | exists flag_field | exists flag_field | exists flag_field ];
    (split; [ cbn [In]; auto 6 | ]);
    destruct (input _ query) as [| | | | text | |]; try discriminate;
    try (intro a; cbn; discriminate);
    rewrite flag_field_string;
    change (is_flag _) with true in Ho; cbn [andb] in Ho;
    destruct (zero_or_one (Number (Str text))); try discriminate;
    intro a; cbn; discriminate.
Qed.

Lemma parse_return_no_offender (v : Js.value) :
  parse QuerySchema (Obj query) = Return v ->
  forall field, In field required -> offending query field = false.
Proof.
  intros Hp field Hf.
  destruct (offending query field) eqn:Ho; [ exfalso | reflexivity ].
  destruct (offending_not_valid field Hf Ho) as (sch & Hin & Hbad).
  pose proof (parse_shape_invalid _ [] query field sch Hin Hbad) as Hv.
  unfold parse, QuerySchema, object in Hp. fold number_field in Hp. fold flag_field in Hp.
  destruct (parse_shape _ [] query) as [pairs issues].
  cbn [fst] in Hv. destruct (merge_object pairs) as [m | m |]; try discriminate.
  now destruct (Hv m).
Qed.

Lemma parse_throw_issues (issues : list Js.value) :
  parse QuerySchema (Obj query) = Throw (ZodError issues) ->
  issues = map (fun key => issue_for key (input key query))
               (filter (offending query) required).
Proof.
  intro Hp. rewrite <- QuerySchema_issues.
  unfold parse in Hp. destruct (QuerySchema [] (Obj query)) as [[v | v |] is0];
    inversion Hp; reflexivity.
Qed.

End Validation.

(** X1: the schema accepts a query exactly when each of the five required
    keys holds one string and the strings of [pin], [chip] and [online]
    read as 0 or 1; the validated object then holds [Number] of each
    string, under the five keys in the order of the schema, whatever else
    the query holds. *)
Theorem X1_validation_accepts_exactly_the_acceptable
  (query : list (string * Js.value)) :
  (acceptable query <-> exists v, Zod.parse QuerySchema (Obj query) = Return v) /\
  (forall v,
      Zod.parse QuerySchema (Obj query) = Return v ->
      v = Obj (map (fun key => (key, Number (Zod.input key query))) required)).
Proof.
  assert (Hacc : acceptable query ->
                 Zod.parse QuerySchema (Obj query)
                 = Return (Obj (map (fun key => (key, Number (Zod.input key query)))
                                    required))).
  { intro Ha.
    destruct (acceptable_accepted query Ha)
      as (d & r & p & c & o & Hd & Hr & Hp & Hc & Ho & Hv).
    rewrite Hv. unfold required. cbn [map].
    apply input_string in Hd, Hr, Hp, Hc, Ho. now rewrite Hd, Hr, Hp, Hc, Ho. }
  split; [ split | ].
  - intro Ha. eexists. now apply Hacc.
  - intros [v Hv]. apply acceptable_no_offender.
    now apply (parse_return_no_offender query v).
  - intros v Hv.
    assert (Ha : acceptable query)
      by (apply acceptable_no_offender; now apply (parse_return_no_offender query v)).
    rewrite (Hacc Ha) in Hv. now inversion Hv.
Qed.

(** X2: a rejected query is reported field by field: the issues are one
    for each offending field among the five, in the order of the schema,
    so every violation is listed at once; an issue refers to a field
    exactly when that field offends. *)
Theorem X2_rejection_lists_every_offending_field
  (query : list (string * Js.value)) (issues : list Js.value) :
  Zod.parse QuerySchema (Obj query) = Throw (ZodError issues) ->
  issues = map (fun key => issue_for key (Zod.input key query))
               (filter (offending query) required) /\
  issues <> [] /\
  List.length issues = List.length (filter (offending query) required) /\
  (forall field,
      (In field required /\ offending query field = true) <->
      (exists issue, In issue issues /\ references field issue)).
Proof.
  intro Hp. pose proof (parse_throw_issues query issues Hp) as ->.
  split; [ reflexivity | ]. split; [ | split; [ apply length_map | ] ].
  - intro Hnil. apply map_eq_nil in Hnil.
    assert (Ha : acceptable query).
    { apply acceptable_no_offender. intros field Hf.
      destruct (offending query field) eqn:Ho; [ exfalso | reflexivity ].
      assert (Hin : In field (filter (offending query) required))
        by (apply filter_In; auto).
      rewrite Hnil in Hin. destruct Hin. }
    destruct (acceptable_accepted query Ha) as (d & r & p & c & o & _ & _ & _ & _ & _ & Hv).
    rewrite Hv in Hp. discriminate.
  - intro field. split.
    + intros [Hf Ho]. exists (issue_for field (Zod.input field query)).
      split; [ | apply issue_for_references ].
      apply in_map_iff. exists field. split; [ reflexivity | ]. apply filter_In. auto.
    + intros (issue & Hin & Href). apply in_map_iff in Hin.
      destruct Hin as (key & <- & Hk). apply filter_In in Hk.
      pose proof (issue_for_references key (Zod.input key query)) as Hkey.
      unfold references in *. rewrite Hkey in Href. inversion Href. now subst.
Qed.

Lemma X2_witness_pin_repeated :
  Zod.parse QuerySchema (Obj pin_repeated)
  = Throw (ZodError [Zod.invalid_type "string" (Arr [Str "1"; Str "1"]) ["pin"];
                     Zod.custom ["online"]]) /\
  filter (offending pin_repeated) required = ["pin"; "online"] /\
  (exists issue,
      In issue [Zod.invalid_type "string" (Arr [Str "1"; Str "1"]) ["pin"];
                Zod.custom ["online"]] /\
      references "online" issue).
Proof.
  assert (Hp : Zod.parse QuerySchema (Obj pin_repeated)
               = Throw (ZodError [Zod.invalid_type "string" (Arr [Str "1"; Str "1"]) ["pin"];
                                  Zod.custom ["online"]]))
    by (vm_compute; reflexivity).
  split; [ exact Hp | ]. split; [ vm_compute; reflexivity | ].
  destruct (X2_rejection_lists_every_offending_field pin_repeated _ Hp) as (_ & _ & _ & H).
  apply H. split; [ cbn; auto 6 | vm_compute; reflexivity ].
Defined.

(** ** Keys outside the schema *)

Lemma parse_same_required (q1 q2 : list (string * Js.value)) :
  (forall field, In field required -> lookup field q1 = lookup field q2) ->
  Zod.parse QuerySchema (Obj q1) = Zod.parse QuerySchema (Obj q2).
Proof.
  intro H. unfold Zod.parse, QuerySchema, Zod.object.
  rewrite (parse_shape_same_inputs _ [] q1 q2); [ reflexivity | ].
  intros ks Hin. unfold Zod.input. rewrite (H (fst ks)); [ reflexivity | ].
  cbn [In] in Hin. unfold required. cbn [In].
  destruct Hin as [<- | [<- | [<- | [<- | [<- | []]]]]]; cbn [fst]; auto 6.
Qed.

Lemma predict_same_parse (scope : list string) (w : world) (s : server)
  (q1 q2 : list (string * Js.value)) :
  Zod.parse QuerySchema (Obj q1) = Zod.parse QuerySchema (Obj q2) ->
  predict_in scope w s (predict_request q1) [] = predict_in scope w s (predict_request q2) [].
Proof.
  intro H. unfold predict_in, try_catch, predict_try, bind, lift.
  cbn [req_query predict_request]. now rewrite H.
Qed.

(** X3: the answer to a request for [/predict], and the backend call it
    causes, depend on the query only through the five required keys: two
    queries that agree on them are served alike, so a key the schema does
    not know is ignored. *)
Theorem X3_keys_outside_the_schema_are_ignored
  (scope : list string) (w : world) (s : server) (q1 q2 : list (string * Js.value)) :
  (forall field, In field required -> lookup field q1 = lookup field q2) ->
  serve_with (app_in scope) w s (predict_request q1)
  = serve_with (app_in scope) w s (predict_request q2).
Proof.
  intro H. rewrite !serve_predict.
  rewrite (predict_same_parse scope w s q1 q2 (parse_same_required q1 q2 H)).
  destruct (predict_in scope w s (predict_request q2) []) as [[[r | [e |]] | e] t];
    reflexivity.
Qed.

Lemma X3_witness_extra_key :
  serve (answering no_env) scenario_server (predict_request scenario_query)
  = serve (answering no_env) scenario_server (predict_request scenario_with_extra).
Proof.
  apply (X3_keys_outside_the_schema_are_ignored
           module_scope (answering no_env) scenario_server
           scenario_query scenario_with_extra).
  intros field Hf. unfold required in Hf. cbn [In] in Hf.
  destruct Hf as [<- | [<- | [<- | [<- | [<- | []]]]]]; reflexivity.
Defined.

(** ** The normaliser on any scaler *)


Lemma get_field_nullish (v : Js.value) (k : string) :
  nullish v = true -> exists m, get_field v k = Throw (TypeError m).
Proof. destruct v; try discriminate; intros _; cbn; unfold cannot_read; eauto. Qed.






(** ** Non-finite results *)

Lemma SFcompare_refl (x : spec_float) : x <> S754_nan -> SFcompare x x = Some Eq.
Proof.
  destruct x as [s | s | | s m e]; intro H; cbn.
  - reflexivity.
  - now destruct s.
  - now destruct H.
  - rewrite Z.compare_refl, Pos.compare_cont_refl. now destruct s.
Qed.

(** The finite numbers are the zeros and the finite values of the format. *)
Lemma is_finite_spec (x : float) :
  is_finite x = match Prim2SF x with
                | S754_zero _ | S754_finite _ _ _ => true
                | _ => false
                end.
Proof.
  unfold is_finite, is_nan, is_infinity. rewrite !eqb_spec, abs_spec.
  change (Prim2SF infinity) with (S754_infinity false).
  unfold SFeqb. destruct (Prim2SF x) as [s | s | | s m e] eqn:E.
  - reflexivity.
  - cbn. now destruct s.
  - reflexivity.
  - rewrite SFcompare_refl by discriminate. reflexivity.
Qed.

Lemma is_zero_spec (x : float) :
  is_zero x = true -> exists s, Prim2SF x = S754_zero s.
Proof.
  unfold is_zero. rewrite eqb_spec. change (Prim2SF zero) with (S754_zero false).
  unfold SFeqb. destruct (Prim2SF x) as [s | s | | s m e]; cbn; try discriminate.
  - eauto.
  - destruct s; discriminate.
  - destruct s; discriminate.
Qed.

Lemma Prim2SF_nan : Prim2SF nan = S754_nan.
Proof. reflexivity. Qed.

(** Arithmetic on a missing element, and a division by zero. *)
Lemma standardize_missing_mean (x s : float) : is_finite (standardize x nan s) = false.
Proof.
  rewrite is_finite_spec. unfold standardize. cbn [sub div float_arith].
  rewrite div_spec, sub_spec, Prim2SF_nan.
  destruct (Prim2SF x); reflexivity.
Qed.

Lemma standardize_missing_scale (x m : float) : is_finite (standardize x m nan) = false.
Proof.
  rewrite is_finite_spec. unfold standardize. cbn [sub div float_arith].
  rewrite div_spec, Prim2SF_nan.
  destruct (Prim2SF (x - m)); reflexivity.
Qed.

Lemma standardize_zero_scale (x m s : float) :
  is_zero s = true -> is_finite (standardize x m s) = false.
Proof.
  intro H. destruct (is_zero_spec s H) as [sg Hs].
  rewrite is_finite_spec. unfold standardize. cbn [sub div float_arith].
  rewrite div_spec, Hs.
  destruct (Prim2SF (x - m)); reflexivity.
Qed.

(** X5: a scaler of numbers that is too short for a feature, or whose
    scale for it is zero, is no error: the normaliser returns, and the
    value of that feature is NaN or an infinity. *)
Theorem X5_degenerate_scaler_gives_non_finite_values
  (mean scale raw : list float) (i : nat) :
  (i < List.length raw)%nat ->
  (List.length mean <= i)%nat \/ (List.length scale <= i)%nat \/
  is_zero (nth i scale nan) = true ->
  exists out,
    normalizeData (scaler_of mean scale) (map Num raw) = Return out /\
    List.length out = List.length raw /\
    is_finite (nth i out nan) = false.
Proof.
  intros Hi H. exists (normalize nan mean scale raw).
  split; [ apply normalizeData_numbers | ].
  unfold normalize. split; [ apply length_map_index | ].
  rewrite (nth_map_index _ 0 raw i nan nan Hi). cbn [Nat.add].
  destruct H as [H | [H | H]].
  - rewrite (nth_overflow mean nan H). apply standardize_missing_mean.
  - rewrite (nth_overflow scale nan H). apply standardize_missing_scale.
  - now apply standardize_zero_scale.
Qed.

Lemma X5_witness_short_scaler :
  (exists out,
      normalizeData (scaler short_server) (map Num [10; 1.2; 1; 1; 0]%float) = Return out /\
      List.length out = 5%nat /\ is_finite (nth 0 out nan) = false) /\
  (exists out,
      normalizeData (scaler short_server) (map Num [10; 1.2; 1; 1; 0]%float) = Return out /\
      List.length out = 5%nat /\ is_finite (nth 4 out nan) = false).
Proof.
  split.
  - apply (X5_degenerate_scaler_gives_non_finite_values
             [1; 2]%float [0; 1]%float [10; 1.2; 1; 1; 0]%float 0).
    + cbn. lia.
    + right. right. reflexivity.
  - apply (X5_degenerate_scaler_gives_non_finite_values
             [1; 2]%float [0; 1]%float [10; 1.2; 1; 1; 0]%float 4).
    + cbn. lia.
    + left. cbn. lia.
Defined.

(** ** What the prediction handler can do *)

Lemma rejection_not_empty (query : list (string * Js.value)) (issues : list Js.value) :
  Zod.parse QuerySchema (Obj query) = Throw (ZodError issues) -> issues <> [].
Proof.
  intros Hp Hnil. pose proof (parse_throw_issues query issues Hp) as Hi.
  rewrite Hnil in Hi. symmetry in Hi. apply map_eq_nil in Hi.
  assert (Ha : acceptable query).
  { apply acceptable_no_offender. intros field Hf.
    destruct (offending query field) eqn:Ho; [ exfalso | reflexivity ].
    assert (Hin : In field (filter (offending query) required))
      by (apply filter_In; auto).
    rewrite Hi in Hin. destruct Hin. }
  destruct (acceptable_accepted query Ha) as (d & r & p & c & o & _ & _ & _ & _ & _ & Hv).
  rewrite Hv in Hp. discriminate.
Qed.

(** In any scope the handler answers 400 with issues, answers 200 with a
    prediction, or calls [next] with an error; it makes at most the one
    call. *)
Lemma predict_actions (scope : list string) (w : world) (s : server) (req : request) :
  exists a t,
    predict_in scope w s req [] = (Return a, t) /\
    (t = [] \/ exists n, t = [BackendCall (model_url w) (envelope n)]) /\
    ((exists issues, issues <> [] /\ a = Send (invalid_input issues)) \/
     (exists p, a = Send (json (prediction p (threshold w)))) \/
     (exists e, a = Next (Some e))).
Proof.
  change (predict_in scope w s req [])
    with (predict_in scope w s (predict_request (req_query req)) []).
  destruct (Zod.parse QuerySchema (Obj (req_query req))) as [v | e] eqn:Hp.
  - destruct (prepared s v) as [n | e] eqn:Hn.
    + destruct (bound scope "https") eqn:Hs.
      * rewrite (predict_bound scope w s _ v n Hp Hn Hs).
        unfold issued; destruct (http_adapter w _ _) as [| data | st];
          [ | destruct (fraudProbability data) | ];
          do 2 eexists; (split; [ reflexivity | ]);
          (split; [ first [ now left | right; eauto ] | ]); eauto.
      * rewrite (predict_unbound scope w s _ v n Hp Hn Hs).
        do 2 eexists. split; [ reflexivity | ]. split; [ now left | eauto ].
    + destruct (prepared_throws s v e Hn) as [m ->].
      rewrite (predict_unprepared scope w s _ v _ Hp Hn); [ | discriminate ].
      do 2 eexists. split; [ reflexivity | ]. split; [ now left | eauto ].
  - destruct (parse_throws _ _ _ Hp) as [issues ->].
    rewrite (predict_invalid scope w s _ issues Hp).
    do 2 eexists. split; [ reflexivity | ]. split; [ now left | ].
    left. exists issues. split; [ now apply (rejection_not_empty (req_query req)) | reflexivity ].
Qed.

(** As written, it makes none. *)
Lemma predict_silent_as_written (w : world) (s : server) (req : request) :
  snd (predict_in module_scope w s req []) = [].
Proof.
  change (predict_in module_scope w s req [])
    with (predict_in module_scope w s (predict_request (req_query req)) []).
  destruct (Zod.parse QuerySchema (Obj (req_query req))) as [v | e] eqn:Hp.
  - destruct (prepared s v) as [n | e] eqn:Hn.
    + now rewrite (predict_unbound module_scope w s _ v n Hp Hn https_unbound).
    + destruct (prepared_throws s v e Hn) as [m ->].
      rewrite (predict_unprepared module_scope w s _ v _ Hp Hn); [ reflexivity | discriminate ].
  - destruct (parse_throws _ _ _ Hp) as [issues ->].
    now rewrite (predict_invalid module_scope w s _ issues Hp).
Qed.

(** X6: in the program as written no request, whatever its method, path
    and query, causes a backend call; a request for [/predict] is answered
    400 with a list of issues that is not empty, or 500 by the final
    handler, which logs the error, and never 200: line 152 reads [https],
    which lines 1-6 do not import. *)
Theorem X6_as_written_the_backend_is_never_called (w : world) (s : server) :
  (forall req, backend_calls (events_of (serve w s req)) = []) /\
  (forall query,
      (exists issues,
          issues <> [] /\
          serve w s (predict_request query) = (invalid_input issues, [], s)) \/
      (exists e,
          serve w s (predict_request query)
          = ({| status := 500;
                content := Html (if production w then StatusMessage 500 else StackTrace e) |},
             (if testing w then [] else [ErrorLogged e]), s))).
Proof.
  split.
  - intro req. unfold serve, app.
    destruct (serve_calls module_scope w s req) as [H | H]; rewrite H; [ reflexivity | ].
    now rewrite predict_silent_as_written.
  - intro query.
    destruct (Zod.parse QuerySchema (Obj query)) as [v | e] eqn:Hp.
    + right. destruct (serve_validated w s query v Hp) as (e & _ & H). eauto.
    + left. destruct (parse_throws _ _ _ Hp) as [issues ->]. exists issues.
      split; [ now apply (rejection_not_empty query) | ].
      now apply (serve_rejected module_scope).
Qed.

(** X7: the error middleware of lines 114-117 is dead code: registered
    before every route, it is passed while no error exists and never seen
    again. For no request, in any scope, is its [console.error(err)]
    executed, and outside [/docs] no request is answered
    [{error: 'Internal server error'}]. An error that the prediction
    handler passes to [next] is answered by the final handler, which
    reports it itself ([console.error(err.stack)]) unless [NODE_ENV] is
    [test]. *)
Theorem X7_the_error_middleware_answers_no_request
  (scope : list string) (w : world) (s : server) (req : request) :
  layer_matches (Use "/docs") req = false ->
  response_of (serve_with (app_in scope) w s req) <> internal_server_error /\
  (forall e, ~ In (ConsoleError e) (events_of (serve_with (app_in scope) w s req))) /\
  (forall e t,
      layer_matches (Get "/predict") req = true ->
      predict_in scope w s req [] = (Return (Next (Some e)), t) ->
      serve_with (app_in scope) w s req
      = (on_wire req (finalhandler (production w) req (Some e)),
         (t ++ (if testing w then [] else [ErrorLogged e]))%list, s)).
Proof.
  intro Hdocs.
  split; [ | split; [ intro e; apply error_middleware_never_runs | ] ].
  - rewrite serve_routes, Hdocs. unfold response_of, on_wire.
    destruct (req_method req);
      try (destruct (route_matches "/health" (req_path req)
                     || route_matches "/predict" (req_path req)
                     || route_matches "/" (req_path req)));
      try (cbn; discriminate);
      (destruct (route_matches "/health" (req_path req)); [ cbn; discriminate | ];
       destruct (route_matches "/predict" (req_path req));
       [ | destruct (route_matches "/" (req_path req)); cbn; discriminate ];
       destruct (predict_actions scope w s req) as (a & t & -> & _ & Ha);
       destruct Ha as [(issues & _ & ->) | [(p & ->) | (e & ->)]];
       cbn -[finalhandler stringified]; intro H;
       first [ apply (f_equal status) in H; discriminate
             | apply (f_equal content) in H; discriminate ]).
  - intros e t Hroute Hnext. rewrite serve_routes, Hdocs.
    unfold layer_matches in Hroute.
    destruct (req_method req); try discriminate;
      rewrite (predict_route_only _ Hroute), Hroute, Hnext; reflexivity.
Qed.

Lemma X7_witness_unreachable_backend :
  response_of (serve_with (app_in ("https" :: module_scope)) (unreachable model_env)
                          scenario_server (predict_request scenario_query))
  <> internal_server_error /\
  (forall e,
    ~ In (ConsoleError e)
         (events_of (serve_with (app_in ("https" :: module_scope)) (unreachable model_env)
                                scenario_server (predict_request scenario_query)))) /\
  serve_with (app_in ("https" :: module_scope)) (unreachable model_env)
             scenario_server (predict_request scenario_query)
  = ({| status := 500; content := Html (StackTrace (AxiosError None)) |},
     [BackendCall model_url_text (envelope scenario_normalized);
      ErrorLogged (AxiosError None)],
     scenario_server).
Proof.
  destruct (X7_the_error_middleware_answers_no_request
              ("https" :: module_scope) (unreachable model_env) scenario_server
              (predict_request scenario_query) eq_refl) as (Hr & Hc & Hn).
  split; [ exact Hr | split; [ exact Hc | ] ].
  apply (Hn (AxiosError None) [BackendCall model_url_text (envelope scenario_normalized)]);
    vm_compute; reflexivity.
Defined.

(** ** The backend call *)

Lemma map_from_length {A B : Type} (f : nat -> A -> outcome B) (l : list A) :
  forall (i : nat) (out : list B),
    map_from f i l = Return out -> List.length out = List.length l.
Proof.
  induction l as [| a r IH]; intros i out; cbn [map_from].
  - intro H. inversion H. reflexivity.
  - unfold and_then at 1. destruct (f i a) as [b |]; [ | discriminate ].
    unfold and_then. destruct (map_from f (S i) r) as [bs |] eqn:E; [ | discriminate ].
    intro H. inversion H. cbn [List.length]. now rewrite (IH (S i) bs E).
Qed.

Lemma rawData_length (v : Js.value) (raw : list Js.value) :
  rawData v = Return raw -> List.length raw = 5%nat.
Proof.
  unfold rawData, and_then.
  repeat match goal with
         | |- context [match get_field ?a ?k with _ => _ end] =>
             destruct (get_field a k); [ | discriminate ]
         end.
  intro H. inversion H. reflexivity.
Qed.

Lemma prepared_length (s : server) (v : Js.value) (n : list float) :
  prepared s v = Return n -> List.length n = 5%nat.
Proof.
  unfold prepared, and_then. destruct (rawData v) as [raw |] eqn:E; [ | discriminate ].
  intro H. unfold normalizeData in H. rewrite (map_from_length _ _ _ _ H).
  now apply (rawData_length v).
Qed.

Lemma predict_call_shape (scope : list string) (w : world) (s : server) (req : request)
  (ev : event) :
  In ev (snd (predict_in scope w s req [])) ->
  exists n, ev = BackendCall (model_url w) (envelope n) /\ List.length n = 5%nat.
Proof.
  change (predict_in scope w s req [])
    with (predict_in scope w s (predict_request (req_query req)) []).
  destruct (Zod.parse QuerySchema (Obj (req_query req))) as [v | e] eqn:Hp.
  - destruct (prepared s v) as [n | e] eqn:Hn.
    + destruct (bound scope "https") eqn:Hs.
      * rewrite (predict_bound scope w s _ v n Hp Hn Hs). cbn [snd]. unfold issued.
        destruct (http_adapter w _ _); [ intros [] | | ]; intros [<- | []]; exists n;
          (split; [ reflexivity | now apply (prepared_length s v) ]).
      * rewrite (predict_unbound scope w s _ v n Hp Hn Hs). intros [].
    + destruct (prepared_throws s v e Hn) as [m ->].
      rewrite (predict_unprepared scope w s _ v _ Hp Hn); [ intros [] | discriminate ].
  - destruct (parse_throws _ _ _ Hp) as [issues ->].
    rewrite (predict_invalid scope w s _ issues Hp). intros [].
Qed.

(** X8: whatever the module binds and whatever the request, a backend
    call goes to the configured URL and carries the envelope of lines
    155-161 with exactly five numbers, as its declared shape [1, 5] says. *)
Theorem X8_every_backend_call_carries_five_numbers
  (scope : list string) (w : world) (s : server) (req : request)
  (url : string) (body : Js.value) :
  In (url, body) (backend_calls (events_of (serve_with (app_in scope) w s req))) ->
  url = model_url w /\
  exists n, body = envelope n /\ List.length n = 5%nat.
Proof.
  destruct (serve_calls scope w s req) as [H | H]; rewrite H; [ intros [] | ].
  unfold backend_calls. rewrite in_flat_map. intros (ev & Hin & Hev).
  destruct (predict_call_shape scope w s req ev Hin) as (n & -> & Hlen).
  cbn [In] in Hev. destruct Hev as [Hev | []]. inversion Hev. eauto.
Qed.

Lemma X8_witness_scenario :
  model_url_text = model_url (answering model_env) /\
  exists n, envelope scenario_normalized = envelope n /\ List.length n = 5%nat.
Proof.
  apply (X8_every_backend_call_carries_five_numbers
           ("https" :: module_scope) (answering model_env) scenario_server
           (predict_request scenario_query)).
  vm_compute. now left.
Defined.



(** ** The decision at its edges *)

Lemma is_nan_spec (x : float) : is_nan x = true -> Prim2SF x = S754_nan.
Proof.
  unfold is_nan. rewrite eqb_spec. unfold SFeqb. intro H.
  destruct (Prim2SF x) as [s | s | | s m e] eqn:E; try reflexivity;
    rewrite SFcompare_refl in H by discriminate; discriminate.
Qed.

Lemma not_above_nan (t x : float) :
  is_nan t = true \/ is_nan x = true -> (t <? x)%float = false.
Proof.
  rewrite ltb_spec. unfold SFltb. intros [H | H]; apply is_nan_spec in H; rewrite H.
  - reflexivity.
  - destruct (Prim2SF t); reflexivity.
Qed.



(** X11: the threshold is 0.95 when [FRAUD_THRESHOLD] is unset or empty,
    and [Number] of its text otherwise; a text that is not a number makes
    the threshold NaN, and then no probability at all is flagged. *)
Theorem X11_threshold_from_the_environment (w : world) (text : string) :
  (env w "FRAUD_THRESHOLD" = None \/ env w "FRAUD_THRESHOLD" = Some "" ->
   threshold w = 0.95%float) /\
  (env w "FRAUD_THRESHOLD" = Some text -> text <> "" ->
   threshold w = StringToNumber text /\
   (is_nan (StringToNumber text) = true ->
    forall probability,
      prediction probability (threshold w)
      = Obj [("is_fraud", Bool false); ("fraud_probability", probability)])).
Proof.
  unfold threshold, or_else. split.
  - intros [-> | ->]; reflexivity.
  - intros -> Hne. apply String.eqb_neq in Hne. rewrite Hne. cbn [ToNumber].
    split; [ reflexivity | ].
    intros Hnan probability. unfold prediction, gt_num.
    now rewrite (not_above_nan _ _ (or_introl Hnan)).
Qed.

Lemma X11_witness_thresholds :
  threshold (answering no_env) = 0.95%float /\
  threshold (answering (threshold_env "0.5")) = 0.5%float /\
  prediction (Num 1) (threshold (answering (threshold_env "high")))
  = Obj [("is_fraud", Bool false); ("fraud_probability", Num 1)].
Proof.
  split; [ | split ].
  - apply (proj1 (X11_threshold_from_the_environment (answering no_env) "")).
    now left.
  - pose proof (proj2 (X11_threshold_from_the_environment
                         (answering (threshold_env "0.5")) "0.5") eq_refl) as H.
    destruct H as [-> _]; [ discriminate | vm_compute; reflexivity ].
  - pose proof (proj2 (X11_threshold_from_the_environment
                         (answering (threshold_env "high")) "high") eq_refl) as H.
    destruct H as [_ H]; [ discriminate | ].
    apply H. vm_compute. reflexivity.
Defined.

(** ** Requests that meet no handler *)

(** X12: the routes are registered with [app.get] only, so outside
    [/docs] a request with another method than GET or HEAD runs no
    handler: it is not validated, it causes no event and it leaves the
    process as it was. An OPTIONS request whose path is one of the three
    routes is answered 200 by the router itself, with the methods of the
    route, [GET,HEAD], in the [Allow] header and in the body; every other
    such request (POST, PUT, PATCH, DELETE on any path, OPTIONS on an
    unknown path) is answered 404 by the final handler. *)
Theorem X12_other_methods_reach_no_handler
  (scope : list string) (w : world) (s : server) (req : request) :
  req_method req <> GET -> req_method req <> HEAD ->
  layer_matches (Use "/docs") req = false ->
  serve_with (app_in scope) w s req
  = (match req_method req with
     | OPTIONS =>
         if routed (req_path req)
         then {| status := 200; content := Allow ["GET"; "HEAD"] |}
         else {| status := 404; content := Html (CannotFind OPTIONS (req_path req)) |}
     | m => {| status := 404; content := Html (CannotFind m (req_path req)) |}
     end,
     [], s).
Proof.
  intros Hg Hh Hdocs. rewrite serve_routes, Hdocs. unfold routed, finalhandler.
  destruct req as [m p q]. cbn [req_method req_path] in *.
  destruct m; try reflexivity; [ now destruct Hg | now destruct Hh | ].
  destruct (route_matches "/health" p || route_matches "/predict" p
            || route_matches "/" p); reflexivity.
Qed.

Lemma X12_witness_other_methods :
  serve (answering model_env) scenario_server (request_of POST "/predict" scenario_query)
  = ({| status := 404; content := Html (CannotFind POST "/predict") |}, [], scenario_server) /\
  serve (answering model_env) scenario_server (request_of OPTIONS "/predict" scenario_query)
  = ({| status := 200; content := Allow ["GET"; "HEAD"] |}, [], scenario_server) /\
  serve (answering model_env) scenario_server (request_of OPTIONS "/nowhere" [])
  = ({| status := 404; content := Html (CannotFind OPTIONS "/nowhere") |}, [], scenario_server).
Proof.
  split; [ | split ].
  - apply (X12_other_methods_reach_no_handler
             module_scope (answering model_env) scenario_server
             (request_of POST "/predict" scenario_query));
      first [ discriminate | reflexivity ].
  - apply (X12_other_methods_reach_no_handler
             module_scope (answering model_env) scenario_server
             (request_of OPTIONS "/predict" scenario_query));
      first [ discriminate | reflexivity ].
  - apply (X12_other_methods_reach_no_handler
             module_scope (answering model_env) scenario_server
             (request_of OPTIONS "/nowhere" []));
      first [ discriminate | reflexivity ].
Defined.

(** X13: a GET of [/] is answered 200 with the welcome message, and a
    HEAD of [/] with the same status and no body, in any scope and
    whatever the backend, the environment, the scaler and the query are;
    nothing is read and nothing happens. *)
Theorem X13_root_is_always_welcome
  (scope : list string) (w : world) (s : server) (query : list (string * Js.value)) :
  serve_with (app_in scope) w s (request_of GET "/" query)
  = ({| status := 200;
        content := Json (Obj [("message",
                               Str "Welcome to Fraud Detection API. Visit /docs for Swagger documentation")]) |},
     [], s) /\
  serve_with (app_in scope) w s (request_of HEAD "/" query)
  = ({| status := 200; content := Empty |}, [], s).
Proof. split; reflexivity. Qed.
